(** * Smolder web UI: parameter marshalling and call dispatch

    A shallow embedding of the TypeScript sources of the Smolder web
    dashboard: [lib/format.ts] ([truncateAddress]), [api/client.ts]
    ([fetchJson], [postJson] and the [api] table),
    [components/function-form.tsx] ([parseParams], [handleSubmit]),
    [components/deploy-modal.tsx] and [pages/deploy.tsx]
    ([parseConstructorArgs], [handleDeploy]) and
    [pages/deployment-details.tsx] ([loadHistory], [handleTxSent]).

    Conventions of the embedding:
    - a JavaScript string is a [string]; each character stands for one
      UTF-16 code unit, restricted to the range U+0000..U+00FF.  Values
      produced by [JSON.parse] keep full 16-bit code units;
    - a [Record<string, string>] used as a dictionary holds its own
      properties in a [gmap string string]; the object starts as [{}],
      so a read at a name it does not own falls through to
      [Object.prototype] ([get_or_empty]);
    - exceptions are explicit ([exn]); React state, the clock, pending
      timers and the log of HTTP requests are threaded through [World]. *)

From Stdlib Require Import ZArith NArith Ascii String DecimalString List Lia.
From stdpp Require Import base option list strings gmap.

#[local] Set Warnings "-register-all".

Open Scope string_scope.
Open Scope Z_scope.

(** ** JavaScript strings *)

Module Str.

Definition chars (s : string) : list ascii := list_ascii_of_string s.
Definition text (l : list ascii) : string := string_of_list_ascii l.

(** Relative index of [String.prototype.slice]: negative indices count
    from the end, and the result is clamped to [0, len]. *)
Definition rel_index (len k : Z) : Z :=
  if k <? 0 then Z.max (len + k) 0 else Z.min k len.

(** [s.slice(start, end)]; [end_ = None] is an omitted second argument. *)
Definition slice (s : string) (start : Z) (end_ : option Z) : string :=
  let len := Z.of_nat (String.length s) in
  let from := rel_index len start in
  let to := match end_ with None => len | Some e => rel_index len e end in
  let span := Z.max (to - from) 0 in
  text (take (Z.to_nat span) (drop (Z.to_nat from) (chars s))).

(** [s.startsWith(p)] *)
Definition startsWith (s p : string) : bool := String.prefix p s.

(** [s.endsWith(p)] *)
Definition endsWith (s p : string) : bool :=
  let n := String.length s in
  let m := String.length p in
  (m <=? n)%nat && String.eqb (String.substring (n - m) m s) p.

(** Lower-casing of one code unit in U+0000..U+00FF: the ASCII capitals
    and the Latin-1 capitals U+00C0..U+00DE other than U+00D7 move up by
    32; every other code unit of the range is its own lower case. *)
Definition lower_unit (c : ascii) : ascii :=
  let n := N_of_ascii c in
  if ((65 <=? n) && (n <=? 90))%N then ascii_of_N (n + 32)
  else if ((192 <=? n) && (n <=? 222) && negb (n =? 215))%N
       then ascii_of_N (n + 32)
  else c.

(** [s.toLowerCase()] *)
Definition toLowerCase (s : string) : string :=
  text (map lower_unit (chars s)).

(** [s.trim()] is not used by the sources; it is defined for comparison
    with the specification only.  White space of the embedded range:
    TAB, LF, VT, FF, CR, SPACE and NBSP. *)
Definition is_space (c : ascii) : bool :=
  let n := N_of_ascii c in
  ((9 <=? n) && (n <=? 13) || (n =? 32) || (n =? 160))%N.

Fixpoint trim_left (l : list ascii) : list ascii :=
  match l with
  | c :: r => if is_space c then trim_left r else l
  | [] => []
  end.

Definition trim (s : string) : string :=
  text (rev (trim_left (rev (trim_left (chars s))))).

(** Decimal rendering of a non-negative integer, as template literals
    produce it for integers below 10^21. *)
Definition show (n : N) : string := NilZero.string_of_uint (N.to_uint n).

End Str.

(** ** lib/format.ts *)

Module Format.

(** [truncateAddress(address)] *)
Definition truncateAddress (address : string) : string :=
  if (String.length address <=? 13)%nat then address
  else Str.slice address 0 (Some 6) +:+ "..." +:+ Str.slice address (-4) None.

End Format.

(** ** JavaScript values, exceptions *)

Module Js.

(** A string value: a sequence of UTF-16 code units. *)
Definition ustring : Type := list N.

(** The code units of a string of the embedded range. *)
Definition units (s : string) : ustring := map N_of_ascii (Str.chars s).

(** The values that flow through the marshalling code: what
    [JSON.parse] can return, which includes the booleans and strings the
    code builds itself.  A number keeps the lexeme it was read from (the
    engine holds the IEEE-754 double nearest to it), so equality here is
    finer than [===] on numbers.  An object lists its own properties in
    the order they were created; that the engine enumerates integer-like
    keys first is not modelled, and nothing here depends on the order.
    [JBuiltin k] is the value [Object.prototype] holds under the name
    [k]: a built-in function, or for [__proto__] the prototype object
    itself.  [JSON.parse] never returns one; it is met when a plain
    object is read at a name it does not own. *)
Inductive jsval : Type :=
| JNull
| JBool (b : bool)
| JNum (lexeme : string)
| JStr (s : ustring)
| JArr (items : list jsval)
| JObj (members : list (ustring * jsval))
| JBuiltin (key : string).

(** A string literal or string variable of the program, as a value. *)
Definition JText (s : string) : jsval := JStr (units s).

(** What a [throw] carries: an instance of [Error] (or of a subclass
    such as [TypeError] and [SyntaxError]) with its [message], or any
    other value. *)
Inductive thrown : Type :=
| ErrorObject (message : string)
| OtherThrown (v : jsval).

(** Outcome of an expression that may throw. *)
Inductive exn (A : Type) : Type :=
| Ok (a : A)
| Throw (e : thrown).
Arguments Ok {A} a.
Arguments Throw {A} e.

(** [o[k] = v] on an object under construction: an existing own property
    keeps its place and takes the new value, a new one goes last. *)
Fixpoint obj_set (k : ustring) (v : jsval) (o : list (ustring * jsval))
  : list (ustring * jsval) :=
  match o with
  | [] => [(k, v)]
  | (k', v') :: o' =>
      if decide (k' = k) then (k, v) :: o' else (k', v') :: obj_set k v o'
  end.

(** Own-property lookup. *)
Fixpoint obj_get (k : ustring) (o : list (ustring * jsval)) : option jsval :=
  match o with
  | [] => None
  | (k', v) :: o' => if decide (k' = k) then Some v else obj_get k o'
  end.

(** [v.k] for a property name [k] that no built-in prototype defines
    (such as [tx_hash] or [result]): reading it off [null] throws a
    [TypeError], an object yields its own property, and any other value
    yields [undefined] ([None]). *)
Definition get_field (v : jsval) (k : string) : exn (option jsval) :=
  match v with
  | JNull =>
      Throw (ErrorObject ("Cannot read properties of null (reading '" +:+ k +:+ "')"))
  | JObj o => Ok (obj_get (units k) o)
  | _ => Ok None
  end.

(** The property names every plain object inherits from
    [Object.prototype] (ECMA-262, 20.1.3 and B.2.2). *)
Definition prototype_keys : list string :=
  [ "constructor"; "hasOwnProperty"; "isPrototypeOf"; "propertyIsEnumerable";
    "toLocaleString"; "toString"; "valueOf"; "__proto__";
    "__defineGetter__"; "__defineSetter__";
    "__lookupGetter__"; "__lookupSetter__" ].

Definition inherited (name : string) : bool :=
  existsb (String.eqb name) prototype_keys.

(** What a read of a [Record<string, string>] yields once [undefined] is
    replaced by the empty string: a string, or the value inherited
    under a name of [prototype_keys]. *)
Inductive rawval : Type :=
| RText (s : string)
| RInherited (key : string).

Coercion RText : string >-> rawval.

(** [o[name] ?? ""] on an object that was created as [{}] and extended
    by [{ ...prev, [name]: v }] only: [o] maps the own properties, all
    of them strings (a computed key defines an own property, also for
    [__proto__]); a name the object does not own is looked up on
    [Object.prototype], and only a name absent from both gives
    [undefined], hence the empty string. *)
Definition get_or_empty (o : gmap string string) (name : string) : rawval :=
  match o !! name with
  | Some s => RText s
  | None => if inherited name then RInherited name else RText ""
  end.

(** The read [o[name] ?? ""] yields a string: the name is an own
    property, or [Object.prototype] does not define it. *)
Definition reads_text (o : gmap string string) (name : string) : Prop :=
  o !! name = None -> inherited name = false.

(** [rawValue === ""] *)
Definition strict_eq_empty (rawValue : rawval) : bool :=
  match rawValue with
  | RText s => bool_decide (s = "")
  | RInherited _ => false
  end.

(** [rawValue.toLowerCase()]: a string has the method; a built-in
    function and [Object.prototype] have no property of that name, and
    calling [undefined] throws a [TypeError] (the message is V8's). *)
Definition raw_toLowerCase (rawValue : rawval) : exn string :=
  match rawValue with
  | RText s => Ok (Str.toLowerCase s)
  | RInherited _ =>
      Throw (ErrorObject "rawValue.toLowerCase is not a function")
  end.

(** [ToString(rawValue)], which [JSON.parse] applies to its argument:
    the source text of a built-in function (as V8 prints it; the
    function under [constructor] is [Object]), and [[object Object]]
    for the prototype object. *)
Definition raw_ToString (rawValue : rawval) : string :=
  match rawValue with
  | RText s => s
  | RInherited key =>
      if decide (key = "__proto__") then "[object Object]"
      else "function "
           +:+ (if decide (key = "constructor") then "Object" else key)
           +:+ "() { [native code] }"
  end.

(** [rawValue] as a value. *)
Definition raw_value (rawValue : rawval) : jsval :=
  match rawValue with
  | RText s => JText s
  | RInherited key => JBuiltin key
  end.

End Js.
Export Js.

(** ** [JSON.parse]

    The built-in, after ECMA-404: a lexer that is one pass over the code
    units and a push-down recogniser that is one pass over the tokens, so
    both are total without any bound on nesting depth. *)

Module JSON.

Inductive token : Type :=
| TLBrace | TRBrace | TLBracket | TRBracket | TColon | TComma
| TString (s : ustring)
| TNumber (lexeme : string)
| TTrue | TFalse | TNull.

(** Where the lexer stands inside a number: an optional minus sign; then
    a single zero, or a non-zero digit and any digits; then optionally a
    point and one or more digits; then optionally an exponent mark, an
    optional sign and one or more digits. *)
Inductive num_phase : Type :=
| NMinus | NZero | NInt | NDot | NFrac | NExp | NExpSign | NExpDigits.

Inductive lex_state : Type :=
| LTop
| LString (acc : list N)
| LNumber (ph : num_phase) (acc : list ascii).

Definition is_ws (c : ascii) : bool :=
  let n := N_of_ascii c in ((n =? 32) || (n =? 9) || (n =? 10) || (n =? 13))%N.

Definition is_digit (c : ascii) : bool :=
  let n := N_of_ascii c in ((48 <=? n) && (n <=? 57))%N.

Definition is_digit19 (c : ascii) : bool :=
  let n := N_of_ascii c in ((49 <=? n) && (n <=? 57))%N.

Definition is_e (c : ascii) : bool := Ascii.eqb c "e" || Ascii.eqb c "E".

Definition is_sign (c : ascii) : bool := Ascii.eqb c "+" || Ascii.eqb c "-".

Definition hex_val (c : ascii) : option N :=
  let n := N_of_ascii c in
  if ((48 <=? n) && (n <=? 57))%N then Some (n - 48)%N
  else if ((97 <=? n) && (n <=? 102))%N then Some (n - 87)%N
  else if ((65 <=? n) && (n <=? 70))%N then Some (n - 55)%N
  else None.

Definition hex4 (a b c d : ascii) : option N :=
  match hex_val a, hex_val b, hex_val c, hex_val d with
  | Some x, Some y, Some z, Some w => Some (((x * 16 + y) * 16 + z) * 16 + w)%N
  | _, _, _, _ => None
  end.

Definition num_accepting (ph : num_phase) : bool :=
  match ph with
  | NZero | NInt | NFrac | NExpDigits => true
  | NMinus | NDot | NExp | NExpSign => false
  end.

Definition num_step (ph : num_phase) (c : ascii) : option num_phase :=
  match ph with
  | NMinus =>
      if Ascii.eqb c "0" then Some NZero
      else if is_digit19 c then Some NInt else None
  | NZero =>
      if Ascii.eqb c "." then Some NDot
      else if is_e c then Some NExp else None
  | NInt =>
      if is_digit c then Some NInt
      else if Ascii.eqb c "." then Some NDot
      else if is_e c then Some NExp else None
  | NDot => if is_digit c then Some NFrac else None
  | NFrac =>
      if is_digit c then Some NFrac
      else if is_e c then Some NExp else None
  | NExp =>
      if is_sign c then Some NExpSign
      else if is_digit c then Some NExpDigits else None
  | NExpSign => if is_digit c then Some NExpDigits else None
  | NExpDigits => if is_digit c then Some NExpDigits else None
  end.

(** The one-character tokens. *)
Definition punct (c : ascii) : option token :=
  if Ascii.eqb c "{" then Some TLBrace
  else if Ascii.eqb c "}" then Some TRBrace
  else if Ascii.eqb c "[" then Some TLBracket
  else if Ascii.eqb c "]" then Some TRBracket
  else if Ascii.eqb c ":" then Some TColon
  else if Ascii.eqb c "," then Some TComma
  else None.

(** What may follow a number without white space: [,], [\]] or [}]; any
    other token there is a syntax error whatever the parser state. *)
Definition after_number (c : ascii) : option token :=
  if Ascii.eqb c "," then Some TComma
  else if Ascii.eqb c "]" then Some TRBracket
  else if Ascii.eqb c "}" then Some TRBrace
  else None.

Definition emit (t : token) (rest : option (list token)) : option (list token) :=
  match rest with Some ts => Some (t :: ts) | None => None end.

Definition quote : ascii := ascii_of_N 34.
Definition backslash : ascii := ascii_of_N 92.

(** The lexer; [None] is a [SyntaxError]. *)
Fixpoint lex (st : lex_state) (s : list ascii) {struct s} : option (list token) :=
  match st, s with
  | LTop, [] => Some []
  | LTop, c :: r =>
      if is_ws c then lex LTop r
      else match punct c with
      | Some t => emit t (lex LTop r)
      | None =>
          if Ascii.eqb c quote then lex (LString []) r
          else if Ascii.eqb c "-" then lex (LNumber NMinus [c]) r
          else if Ascii.eqb c "0" then lex (LNumber NZero [c]) r
          else if is_digit19 c then lex (LNumber NInt [c]) r
          else if Ascii.eqb c "t" then
            match r with
            | "r"%char :: "u"%char :: "e"%char :: r' => emit TTrue (lex LTop r')
            | _ => None
            end
          else if Ascii.eqb c "f" then
            match r with
            | "a"%char :: "l"%char :: "s"%char :: "e"%char :: r' =>
                emit TFalse (lex LTop r')
            | _ => None
            end
          else if Ascii.eqb c "n" then
            match r with
            | "u"%char :: "l"%char :: "l"%char :: r' => emit TNull (lex LTop r')
            | _ => None
            end
          else None
      end
  | LString acc, [] => None
  | LString acc, c :: r =>
      if Ascii.eqb c quote then emit (TString (rev acc)) (lex LTop r)
      else if Ascii.eqb c backslash then
        match r with
        | e :: r' =>
            if Ascii.eqb e quote then lex (LString (34%N :: acc)) r'
            else if Ascii.eqb e backslash then lex (LString (92%N :: acc)) r'
            else if Ascii.eqb e "/" then lex (LString (47%N :: acc)) r'
            else if Ascii.eqb e "b" then lex (LString (8%N :: acc)) r'
            else if Ascii.eqb e "f" then lex (LString (12%N :: acc)) r'
            else if Ascii.eqb e "n" then lex (LString (10%N :: acc)) r'
            else if Ascii.eqb e "r" then lex (LString (13%N :: acc)) r'
            else if Ascii.eqb e "t" then lex (LString (9%N :: acc)) r'
            else if Ascii.eqb e "u" then
              match r' with
              | h1 :: h2 :: h3 :: h4 :: r'' =>
                  match hex4 h1 h2 h3 h4 with
                  | Some n => lex (LString (n :: acc)) r''
                  | None => None
                  end
              | _ => None
              end
            else None
        | [] => None
        end
      else if (N_of_ascii c <? 32)%N then None
      else lex (LString (N_of_ascii c :: acc)) r
  | LNumber ph acc, [] =>
      if num_accepting ph then Some [TNumber (Str.text (rev acc))] else None
  | LNumber ph acc, c :: r =>
      match num_step ph c with
      | Some ph' => lex (LNumber ph' (c :: acc)) r
      | None =>
          if num_accepting ph then
            if is_ws c then emit (TNumber (Str.text (rev acc))) (lex LTop r)
            else match after_number c with
            | Some t => emit (TNumber (Str.text (rev acc))) (emit t (lex LTop r))
            | None => None
            end
          else None
      end
  end.

(** A container under construction: an array with the elements read so
    far (latest first), or an object with its members so far and the key
    whose value is being read. *)
Inductive frame : Type :=
| FArr (items : list jsval)
| FObj (members : list (ustring * jsval)) (key : ustring).

Inductive parse_state : Type :=
| PValue (stk : list frame)
| PArrStart (stk : list frame)
| PArrNext (items : list jsval) (stk : list frame)
| PObjStart (stk : list frame)
| PObjNext (members : list (ustring * jsval)) (stk : list frame)
| PKey (members : list (ustring * jsval)) (stk : list frame)
| PColon (members : list (ustring * jsval)) (key : ustring) (stk : list frame)
| PDone (v : jsval).

(** A complete value goes into the innermost open container, or is the
    result when none is open. *)
Definition plug (v : jsval) (stk : list frame) : parse_state :=
  match stk with
  | [] => PDone v
  | FArr items :: stk' => PArrNext (v :: items) stk'
  | FObj members key :: stk' => PObjNext (obj_set key v members) stk'
  end.

(** A token where a value must start. *)
Definition value_start (stk : list frame) (t : token) : option parse_state :=
  match t with
  | TNull => Some (plug JNull stk)
  | TTrue => Some (plug (JBool true) stk)
  | TFalse => Some (plug (JBool false) stk)
  | TNumber n => Some (plug (JNum n) stk)
  | TString s => Some (plug (JStr s) stk)
  | TLBracket => Some (PArrStart stk)
  | TLBrace => Some (PObjStart stk)
  | _ => None
  end.

Definition step (st : parse_state) (t : token) : option parse_state :=
  match st, t with
  | PValue stk, _ => value_start stk t
  | PArrStart stk, TRBracket => Some (plug (JArr []) stk)
  | PArrStart stk, _ => value_start (FArr [] :: stk) t
  | PArrNext items stk, TComma => Some (PValue (FArr items :: stk))
  | PArrNext items stk, TRBracket => Some (plug (JArr (rev items)) stk)
  | PObjStart stk, TRBrace => Some (plug (JObj []) stk)
  | PObjStart stk, TString k => Some (PColon [] k stk)
  | PObjNext members stk, TComma => Some (PKey members stk)
  | PObjNext members stk, TRBrace => Some (plug (JObj members) stk)
  | PKey members stk, TString k => Some (PColon members k stk)
  | PColon members k stk, TColon => Some (PValue (FObj members k :: stk))
  | _, _ => None
  end.

Fixpoint run (st : parse_state) (ts : list token) : option jsval :=
  match ts with
  | [] => match st with PDone v => Some v | _ => None end
  | t :: ts' =>
      match step st t with
      | Some st' => run st' ts'
      | None => None
      end
  end.

(** [JSON.parse(text)] with no reviver.  The message of the
    [SyntaxError] is engine-specific; nothing below depends on it. *)
Definition parse (text : string) : exn jsval :=
  match lex LTop (Str.chars text) with
  | Some ts =>
      match run (PValue []) ts with
      | Some v => Ok v
      | None => Throw (ErrorObject "Unexpected token in JSON")
      end
  | None => Throw (ErrorObject "Unexpected token in JSON")
  end.

End JSON.

(** ** Truthiness *)

Module Truthy.

(** Digits of a number lexeme up to the exponent mark, without sign and
    point, and how many of them follow the point. *)
Fixpoint mantissa (l : list ascii) (seen_point : bool) (m : N) (frac : N) : N * N * list ascii :=
  match l with
  | [] => (m, frac, [])
  | c :: r =>
      if JSON.is_digit c then
        mantissa r seen_point (10 * m + (N_of_ascii c - 48))%N
                 (if seen_point then frac + 1 else frac)%N
      else if Ascii.eqb c "." then mantissa r true m frac
      else if JSON.is_e c then (m, frac, r)
      else mantissa r seen_point m frac
  end.

Fixpoint exponent (l : list ascii) (neg : bool) (e : N) : Z :=
  match l with
  | [] => if neg then - Z.of_N e else Z.of_N e
  | c :: r =>
      if Ascii.eqb c "-" then exponent r true e
      else if JSON.is_digit c then exponent r neg (10 * e + (N_of_ascii c - 48))%N
      else exponent r neg e
  end.

(** Whether the double nearest to the number written by [lexeme] is zero:
    the digits are all zero, or the magnitude is at most 2^-1075, half of
    the least positive double. *)
Definition num_is_zero (lexeme : string) : bool :=
  let '(m, frac, rest) := mantissa (Str.chars lexeme) false 0%N 0%N in
  let e := exponent rest false 0%N - Z.of_N frac in
  (m =? 0)%N || ((e <? 0) && (Z.of_N m * 2 ^ 1075 <=? 10 ^ (- e))).

(** [ToBoolean] of a value that may be [undefined] ([None]). *)
Definition truthy (v : option jsval) : bool :=
  match v with
  | None | Some JNull => false
  | Some (JBool b) => b
  | Some (JNum n) => negb (num_is_zero n)
  | Some (JStr s) => negb (bool_decide (s = []))
  | Some (JArr _) | Some (JObj _) | Some (JBuiltin _) => true
  end.

(** [v ?? undefined]: [null] and [undefined] become [undefined]. *)
Definition nullish_to_undefined (v : option jsval) : option jsval :=
  match v with
  | None | Some JNull => None
  | Some x => Some x
  end.

End Truthy.

(** ** The browser run time: clock, timers, [fetch] *)

Module CallRequest.
Record t : Type := mk { function_name : string; params : list jsval }.
End CallRequest.

Module SendRequest.
Record t : Type := mk
  { function_name : string;
    params : list jsval;
    wallet_name : string;
    value : option string }.
End SendRequest.

Module DeployRequest.
Record t : Type := mk
  { artifact_name : string;
    network_name : string;
    wallet_name : string;
    constructor_args : list jsval;
    value : option string }.
End DeployRequest.

(** The object handed to [postJson], before [JSON.stringify]; an optional
    field that is [None] is [undefined] and is left out of the JSON text. *)
Inductive payload : Type :=
| CallBody (r : CallRequest.t)
| SendBody (r : SendRequest.t)
| DeployBody (r : DeployRequest.t).

Inductive http_method : Type := GET | POST.

Module Request.
Record t : Type := mk { url : string; method : http_method; body : option payload }.
End Request.

(** A [Response] as far as the client looks at it: [ok], [status], and
    what awaiting [text()] and [json()] gives. *)
Module Response.
Record t : Type := mk
  { ok : bool; status : N; text : exn string; json : exn jsval }.
End Response.

Inductive fetch_result : Type :=
| Rejected (e : thrown)
| Responded (r : Response.t).

(** What the network does with a request, and after how many
    milliseconds. *)
Record reply : Type := { outcome : fetch_result; latency : N }.

(** The closures handed to [setTimeout], defunctionalised:
    [() => loadHistory(id)]. *)
Inductive task : Type :=
| LoadHistoryTask (deploymentId : N).

Record timer : Type := { due : N; callback : task }.

(** The run time and the state [ui] of the mounted components. *)
Record World (S : Type) : Type := mkWorld
  { clock : N;
    timers : list timer;
    sent : list Request.t;
    ui : S }.
Arguments mkWorld {S}.
Arguments clock {S}.
Arguments timers {S}.
Arguments sent {S}.
Arguments ui {S}.

(** An [async] function body: it reads and updates the world and either
    returns or throws.  A handler runs to completion; the time it spends
    awaiting the network is the latency of the reply. *)
Definition M (S A : Type) : Type := World S -> exn A * World S.

Module Eff.
Section Eff.
Context {S : Type}.

Definition ret {A} (a : A) : M S A := fun w => (Ok a, w).

Definition bind {A B} (m : M S A) (k : A -> M S B) : M S B :=
  fun w =>
    match m w with
    | (Ok a, w') => k a w'
    | (Throw e, w') => (Throw e, w')
    end.

Definition throw {A} (e : thrown) : M S A := fun w => (Throw e, w).

(** [try { body } catch (err) { handler }] *)
Definition try_catch {A} (body : M S A) (handler : thrown -> M S A) : M S A :=
  fun w =>
    match body w with
    | (Ok a, w') => (Ok a, w')
    | (Throw e, w') => handler e w'
    end.

(** [try { body } finally { cleanup }], for a [cleanup] that only sets
    state. *)
Definition try_finally {A} (body : M S A) (cleanup : S -> S) : M S A :=
  fun w =>
    let '(r, w') := body w in
    (r, mkWorld (clock w') (timers w') (sent w') (cleanup (ui w'))).

(** A state setter of [useState]. *)
Definition set (f : S -> S) : M S unit :=
  fun w => (Ok tt, mkWorld (clock w) (timers w) (sent w) (f (ui w))).

Definition get : M S S := fun w => (Ok (ui w), w).

(** A pure expression that may throw. *)
Definition lift {A} (x : exn A) : M S A := fun w => (x, w).

(** [setTimeout(callback, delay)] *)
Definition setTimeout (cb : task) (delay : N) : M S unit :=
  fun w =>
    (Ok tt,
     mkWorld (clock w) (timers w ++ [{| due := clock w + delay; callback := cb |}])
             (sent w) (ui w)).

(** [await fetch(url, init)] against the network [net]. *)
Definition fetch (net : Request.t -> reply) (req : Request.t) : M S Response.t :=
  fun w =>
    let r := net req in
    let w' := mkWorld (clock w + latency r) (timers w) (sent w ++ [req]) (ui w) in
    match outcome r with
    | Rejected e => (Throw e, w')
    | Responded resp => (Ok resp, w')
    end.

End Eff.
End Eff.

Notation "'let*' x ':=' m 'in' k" := (Eff.bind m (fun x => k))
  (at level 10, x name, m at level 100, k at level 200).
Notation "m ';;' k" := (Eff.bind m (fun _ => k))
  (at level 100, k at level 200, right associativity).

(** ** api/types.ts *)

(** [components?: ParamInfo[]]: [None] is a field that is absent (or
    [null]), [Some l] a field that holds the array [l], which may be
    empty. *)
Module ParamInfo.
Inductive t : Type := mk
  { name : string;
    param_type : string;
    components : option (list t) }.
End ParamInfo.

Module FunctionInfo.
Record t : Type := mk
  { name : string;
    signature : string;
    inputs : list ParamInfo.t;
    outputs : list ParamInfo.t;
    state_mutability : string }.
End FunctionInfo.

(** [ConstructorInput] has the shape of [ParamInfo]. *)
Module ConstructorInfo.
Record t : Type := mk
  { inputs : list ParamInfo.t;
    state_mutability : string }.
End ConstructorInfo.

(** [constructor: ConstructorInfo | null] is read off the object the
    answer of the server was parsed into.  The key is a name of
    [prototype_keys]: an answer that leaves it out does not read as
    [null] but as the inherited function [Object]. *)
Module ArtifactDetails.
Inductive ctor : Type :=
| ctor_absent
| ctor_null
| ctor_info (info : ConstructorInfo.t).

Record t : Type := mk
  { name : string;
    source_path : string;
    abi : jsval;
    constructor : ctor;
    has_bytecode : bool;
    in_registry : bool }.
End ArtifactDetails.

Module Wallet.
Record t : Type := mk
  { id : N; name : string; address : string; created_at : string }.
End Wallet.

Module Deployment.
Record t : Type := mk
  { id : N;
    contract_name : string;
    network_name : string;
    address : string;
    version : N }.
End Deployment.

(** ** api/client.ts *)

Definition API_BASE : string := "/api".

(** The shared tail of [fetchJson] and [postJson]. *)
Definition read_json {S} (response : Response.t) : M S jsval :=
  if negb (Response.ok response) then
    let* text := Eff.lift (Response.text response) in
    Eff.throw
      (ErrorObject
         (if decide (text = "")
          then "API error: " +:+ Str.show (Response.status response)
          else text))
  else Eff.lift (Response.json response).

Definition fetchJson {S} (net : Request.t -> reply) (url : string) : M S jsval :=
  let* response := Eff.fetch net (Request.mk url GET None) in
  read_json response.

Definition postJson {S} (net : Request.t -> reply) (url : string) (data : payload)
  : M S jsval :=
  let* response := Eff.fetch net (Request.mk url POST (Some data)) in
  read_json response.

Module api.

Module deployments.

Definition call {S} (net : Request.t -> reply) (id : N) (request : CallRequest.t)
  : M S jsval :=
  postJson net (API_BASE +:+ "/deployments/" +:+ Str.show id +:+ "/call")
           (CallBody request).

Definition send {S} (net : Request.t -> reply) (id : N) (request : SendRequest.t)
  : M S jsval :=
  postJson net (API_BASE +:+ "/deployments/" +:+ Str.show id +:+ "/send")
           (SendBody request).

Definition getHistory {S} (net : Request.t -> reply) (id : N) : M S jsval :=
  fetchJson net (API_BASE +:+ "/deployments/" +:+ Str.show id +:+ "/history").

End deployments.

Definition deploy {S} (net : Request.t -> reply) (request : DeployRequest.t)
  : M S jsval :=
  postJson net (API_BASE +:+ "/deploy") (DeployBody request).

End api.

(** [err instanceof Error ? err.message : fallback] *)
Definition message_or (fallback : string) (err : thrown) : string :=
  match err with
  | ErrorObject message => message
  | OtherThrown _ => fallback
  end.

(** [value || undefined] on a string. *)
Definition or_undefined (value : string) : option string :=
  if decide (value = "") then None else Some value.

(** How a component reaches its own [useState] cells inside the state of
    the page that mounts it. *)
Record Mount (S St : Type) : Type :=
  { get_own : S -> St; set_own : St -> S -> S }.
Arguments get_own {S St}.
Arguments set_own {S St}.

Definition own {S St} (mt : Mount S St) : M S St :=
  fun w => (Ok (get_own mt (ui w)), w).

Definition update {S St} (mt : Mount S St) (f : St -> St) : M S unit :=
  Eff.set (fun s => set_own mt (f (get_own mt s)) s).

Definition mounted_alone {St} : Mount St St :=
  {| get_own := fun s => s; set_own := fun st _ => st |}.

(** [Array.prototype.map] with a callback that may throw: elements are
    visited left to right and the first throw ends the call. *)
Fixpoint map_exn {A B} (f : A -> exn B) (l : list A) : exn (list B) :=
  match l with
  | [] => Ok []
  | x :: l' =>
      match f x with
      | Throw e => Throw e
      | Ok y =>
          match map_exn f l' with
          | Throw e => Throw e
          | Ok ys => Ok (y :: ys)
          end
      end
  end.

(** [try { return JSON.parse(rawValue); } catch { return rawValue; }] *)
Definition parse_or_raw (rawValue : rawval) : exn jsval :=
  match JSON.parse (raw_ToString rawValue) with
  | Ok v => Ok v
  | Throw _ => Ok (raw_value rawValue)
  end.

(** ** components/function-form.tsx *)

Module FunctionForm.

Record CallResult : Type := mkResult
  { success : bool;
    data : option jsval;
    txHash : option jsval;
    error : option string }.

Record State : Type := mkState
  { params : gmap string string;
    selectedWallet : string;
    value : string;
    loading : bool;
    expanded : bool;
    result : option CallResult }.

Record Props (S : Type) : Type := mkProps
  { deploymentId : N;
    func : FunctionInfo.t;
    wallets : list Wallet.t;
    isWrite : bool;
    onTxSent : option (option jsval -> M S unit) }.
Arguments mkProps {S}.
Arguments deploymentId {S}.
Arguments func {S}.
Arguments wallets {S}.
Arguments isWrite {S}.
Arguments onTxSent {S}.

Definition setLoading (b : bool) (st : State) : State :=
  mkState (params st) (selectedWallet st) (value st) b (expanded st) (result st).

Definition setResult (r : option CallResult) (st : State) : State :=
  mkState (params st) (selectedWallet st) (value st) (loading st) (expanded st) r.

(** [handleParamChange]: [setParams(prev => ({ ...prev, [name]: paramValue }))] *)
Definition handleParamChange (name paramValue : string) (st : State) : State :=
  mkState (<[name := paramValue]> (params st)) (selectedWallet st) (value st)
          (loading st) (expanded st) (result st).

(** The test of the comment [Arrays and tuples: try to parse as JSON];
    [input.components] is truthy whenever the field is present, also
    when it is an empty array. *)
Definition arrayOrTuple (input : ParamInfo.t) : bool :=
  Str.endsWith (ParamInfo.param_type input) "[]"
  || bool_decide (ParamInfo.param_type input = "tuple")
  || match ParamInfo.components input with Some _ => true | None => false end.

(** The callback of [parseParams], from the test on [rawValue] on.
    [rawValue] is declared a string; what the read hands over can also
    be an inherited value, which is not [""], has no [toLowerCase] and
    is no JSON text. *)
Definition coerce (input : ParamInfo.t) (rawValue : rawval) : exn jsval :=
  if strict_eq_empty rawValue then
    if decide (ParamInfo.param_type input = "bool") then Ok (JBool false)
    else if Str.startsWith (ParamInfo.param_type input) "uint"
            || Str.startsWith (ParamInfo.param_type input) "int"
         then Ok (JText "0")
    else Ok (JText "")
  else if decide (ParamInfo.param_type input = "bool") then
    match raw_toLowerCase rawValue with
    | Ok lowered => Ok (JBool (bool_decide (lowered = "true")))
    | Throw e => Throw e
    end
  else if arrayOrTuple input then parse_or_raw rawValue
  else Ok (raw_value rawValue).

(** The callback of [parseParams]:
    [const rawValue = params[input.name] ?? ""] and the rest. *)
Definition parseParam (params : gmap string string) (input : ParamInfo.t)
  : exn jsval :=
  let rawValue := get_or_empty params (ParamInfo.name input) in
  coerce input rawValue.

Definition parseParams (func : FunctionInfo.t) (params : gmap string string)
  : exn (list jsval) :=
  map_exn (parseParam params) (FunctionInfo.inputs func).

Definition failure (message : string) : CallResult :=
  mkResult false None None (Some message).

(** [handleSubmit]; [e.preventDefault()] does not touch the modelled
    state.  The handler sees the state of the render it was created in. *)
Definition handleSubmit {S} (mt : Mount S State) (net : Request.t -> reply)
  (props : Props S) : M S unit :=
  let* st := own mt in
  update mt (setLoading true) ;;
  update mt (setResult None) ;;
  Eff.try_finally
    (Eff.try_catch
       (let* parsedParams := Eff.lift (parseParams (func props) (params st)) in
        if isWrite props then
          (if decide (selectedWallet st = "")
           then Eff.throw (ErrorObject "Please select a wallet")
           else Eff.ret tt) ;;
          let* response :=
            api.deployments.send net (deploymentId props)
              (SendRequest.mk (FunctionInfo.name (func props)) parsedParams
                              (selectedWallet st) (or_undefined (value st))) in
          let* tx_hash := Eff.lift (get_field response "tx_hash") in
          update mt (setResult (Some (mkResult true None tx_hash None))) ;;
          match onTxSent props with
          | Some f => f tx_hash
          | None => Eff.ret tt
          end
        else
          let* response :=
            api.deployments.call net (deploymentId props)
              (CallRequest.mk (FunctionInfo.name (func props)) parsedParams) in
          let* r := Eff.lift (get_field response "result") in
          update mt (setResult (Some (mkResult true r None None))))
       (fun err =>
          update mt (setResult (Some (failure (message_or "Unknown error" err))))))
    (fun s => set_own mt (setLoading false (get_own mt s)) s).

End FunctionForm.

(** ** pages/deployment-details.tsx *)

Module DeploymentDetail.

Inductive InteractTab : Type := read | write.

Record State : Type := mkState
  { deployment : option Deployment.t;
    history : jsval;
    loading : bool;
    error : option string;
    interactTab : InteractTab;
    form : FunctionForm.State }.

Definition setHistory (h : jsval) (st : State) : State :=
  mkState (deployment st) h (loading st) (error st) (interactTab st) (form st).

(** The [FunctionForm] that is being submitted. *)
Definition form_mount : Mount State FunctionForm.State :=
  {| get_own := form;
     set_own := fun f st =>
       mkState (deployment st) (history st) (loading st) (error st)
               (interactTab st) f |}.

(** [loadHistory]: a failure to load is swallowed. *)
Definition loadHistory (net : Request.t -> reply) (deploymentId : N)
  : M State unit :=
  Eff.try_catch
    (let* historyData := api.deployments.getHistory net deploymentId in
     Eff.set (setHistory historyData))
    (fun _ => Eff.ret tt).

Definition handleTxSent : M State unit :=
  let* st := Eff.get in
  match deployment st with
  | Some d => Eff.setTimeout (LoadHistoryTask (Deployment.id d)) 2000
  | None => Eff.ret tt
  end.

(** The props [InteractTab] gives to each [FunctionForm]. *)
Definition form_props (d : Deployment.t) (func : FunctionInfo.t)
  (wallets : list Wallet.t) (tab : InteractTab) : FunctionForm.Props State :=
  FunctionForm.mkProps (Deployment.id d) func wallets
    (match tab with write => true | read => false end)
    (Some (fun _ => handleTxSent)).

Definition run_task (net : Request.t -> reply) (t : task) : M State unit :=
  match t with
  | LoadHistoryTask id => loadHistory net id
  end.

(** The event loop runs the [i]-th pending timer; it can do so only once
    the clock has reached the time the timer is due. *)
Definition fire (net : Request.t -> reply) (i : nat) (w : World State)
  : option (exn unit * World State) :=
  match timers w !! i with
  | Some t =>
      if (due t <=? clock w)%N
      then Some (run_task net (callback t)
                   (mkWorld (clock w) (delete i (timers w)) (sent w) (ui w)))
      else None
  | None => None
  end.

(** Time passes while nothing runs. *)
Definition wait (d : N) (w : World State) : World State :=
  mkWorld (clock w + d) (timers w) (sent w) (ui w).

End DeploymentDetail.

(** ** components/deploy-modal.tsx *)

Module DeployModal.

Record State : Type := mkState
  { artifactDetails : option ArtifactDetails.t;
    selectedNetwork : string;
    selectedWallet : string;
    constructorArgs : gmap string string;
    value : string;
    deploying : bool;
    deployError : option string }.

(** The argument of [onSuccess]. *)
Record Deployed : Type := mkDeployed
  { address : option jsval; txHash : option jsval; network : string }.

Record Props (S : Type) : Type := mkProps
  { artifactName : string;
    onSuccess : Deployed -> M S unit }.
Arguments mkProps {S}.
Arguments artifactName {S}.
Arguments onSuccess {S}.

Definition setDeploying (b : bool) (st : State) : State :=
  mkState (artifactDetails st) (selectedNetwork st) (selectedWallet st)
          (constructorArgs st) (value st) b (deployError st).

Definition setDeployError (e : option string) (st : State) : State :=
  mkState (artifactDetails st) (selectedNetwork st) (selectedWallet st)
          (constructorArgs st) (value st) (deploying st) e.

(** The callback of [parseConstructorArgs], from the test on [rawValue]
    on: this file's own copy of the marshalling rules. *)
Definition coerce (input : ParamInfo.t) (rawValue : rawval) : exn jsval :=
  if strict_eq_empty rawValue then
    if decide (ParamInfo.param_type input = "bool") then Ok (JBool false)
    else if Str.startsWith (ParamInfo.param_type input) "uint"
            || Str.startsWith (ParamInfo.param_type input) "int"
         then Ok (JText "0")
    else Ok (JText "")
  else if decide (ParamInfo.param_type input = "bool") then
    match raw_toLowerCase rawValue with
    | Ok lowered => Ok (JBool (bool_decide (lowered = "true")))
    | Throw e => Throw e
    end
  else if Str.endsWith (ParamInfo.param_type input) "[]"
          || bool_decide (ParamInfo.param_type input = "tuple")
          || match ParamInfo.components input with Some _ => true | None => false end
       then parse_or_raw rawValue
  else Ok (raw_value rawValue).

(** [parseConstructorArgs].  [!artifactDetails?.constructor] is true
    without details and for a [null] constructor; the inherited function
    [Object] is truthy and has no [inputs], so [.inputs.map] throws. *)
Definition parseConstructorArgs (st : State) : exn (list jsval) :=
  match artifactDetails st with
  | Some details =>
      match ArtifactDetails.constructor details with
      | ArtifactDetails.ctor_info ctor =>
          map_exn
            (fun input =>
               let rawValue :=
                 get_or_empty (constructorArgs st) (ParamInfo.name input) in
               coerce input rawValue)
            (ConstructorInfo.inputs ctor)
      | ArtifactDetails.ctor_null => Ok []
      | ArtifactDetails.ctor_absent =>
          Throw (ErrorObject
                   "Cannot read properties of undefined (reading 'map')")
      end
  | None => Ok []
  end.

Definition handleDeploy {S} (mt : Mount S State) (net : Request.t -> reply)
  (props : Props S) : M S unit :=
  let* st := own mt in
  update mt (setDeploying true) ;;
  update mt (setDeployError None) ;;
  Eff.try_finally
    (Eff.try_catch
       (let* args := Eff.lift (parseConstructorArgs st) in
        let* response :=
          api.deploy net
            (DeployRequest.mk (artifactName props) (selectedNetwork st)
                              (selectedWallet st) args (or_undefined (value st))) in
        let* contract_address := Eff.lift (get_field response "contract_address") in
        if Truthy.truthy contract_address then
          let* tx_hash := Eff.lift (get_field response "tx_hash") in
          onSuccess props (mkDeployed contract_address tx_hash (selectedNetwork st))
        else Eff.ret tt)
       (fun err =>
          update mt (setDeployError (Some (message_or "Deployment failed" err)))))
    (fun s => set_own mt (setDeploying false (get_own mt s)) s).

End DeployModal.

(** ** pages/deploy.tsx *)

Module Deploy.

Record DeployResult : Type := mkResult
  { success : bool;
    txHash : option jsval;
    address : option jsval;
    deploymentId : option jsval;
    error : option string }.

Record State : Type := mkState
  { selectedArtifact : string;
    artifactDetails : option ArtifactDetails.t;
    selectedNetwork : string;
    selectedWallet : string;
    constructorArgs : gmap string string;
    value : string;
    deploying : bool;
    deployResult : option DeployResult }.

Definition setDeploying (b : bool) (st : State) : State :=
  mkState (selectedArtifact st) (artifactDetails st) (selectedNetwork st)
          (selectedWallet st) (constructorArgs st) (value st) b (deployResult st).

Definition setDeployResult (r : option DeployResult) (st : State) : State :=
  mkState (selectedArtifact st) (artifactDetails st) (selectedNetwork st)
          (selectedWallet st) (constructorArgs st) (value st) (deploying st) r.

(** The callback of [parseConstructorArgs], from the test on [rawValue]
    on: this file's own copy of the marshalling rules. *)
Definition coerce (input : ParamInfo.t) (rawValue : rawval) : exn jsval :=
  if strict_eq_empty rawValue then
    if decide (ParamInfo.param_type input = "bool") then Ok (JBool false)
    else if Str.startsWith (ParamInfo.param_type input) "uint"
            || Str.startsWith (ParamInfo.param_type input) "int"
         then Ok (JText "0")
    else Ok (JText "")
  else if decide (ParamInfo.param_type input = "bool") then
    match raw_toLowerCase rawValue with
    | Ok lowered => Ok (JBool (bool_decide (lowered = "true")))
    | Throw e => Throw e
    end
  else if Str.endsWith (ParamInfo.param_type input) "[]"
          || bool_decide (ParamInfo.param_type input = "tuple")
          || match ParamInfo.components input with Some _ => true | None => false end
       then parse_or_raw rawValue
  else Ok (raw_value rawValue).

(** [parseConstructorArgs].  [!artifactDetails?.constructor] is true
    without details and for a [null] constructor; the inherited function
    [Object] is truthy and has no [inputs], so [.inputs.map] throws. *)
Definition parseConstructorArgs (st : State) : exn (list jsval) :=
  match artifactDetails st with
  | Some details =>
      match ArtifactDetails.constructor details with
      | ArtifactDetails.ctor_info ctor =>
          map_exn
            (fun input =>
               let rawValue :=
                 get_or_empty (constructorArgs st) (ParamInfo.name input) in
               coerce input rawValue)
            (ConstructorInfo.inputs ctor)
      | ArtifactDetails.ctor_null => Ok []
      | ArtifactDetails.ctor_absent =>
          Throw (ErrorObject
                   "Cannot read properties of undefined (reading 'map')")
      end
  | None => Ok []
  end.

Definition handleDeploy (net : Request.t -> reply) : M State unit :=
  let* st := Eff.get in
  Eff.set (setDeploying true) ;;
  Eff.set (setDeployResult None) ;;
  Eff.try_finally
    (Eff.try_catch
       (let* args := Eff.lift (parseConstructorArgs st) in
        let* response :=
          api.deploy net
            (DeployRequest.mk (selectedArtifact st) (selectedNetwork st)
                              (selectedWallet st) args (or_undefined (value st))) in
        let* tx_hash := Eff.lift (get_field response "tx_hash") in
        let* contract_address := Eff.lift (get_field response "contract_address") in
        let* deployment_id := Eff.lift (get_field response "deployment_id") in
        Eff.set
          (setDeployResult
             (Some (mkResult true tx_hash
                      (Truthy.nullish_to_undefined contract_address)
                      (Truthy.nullish_to_undefined deployment_id) None))))
       (fun err =>
          Eff.set
            (setDeployResult
               (Some (mkResult false None None None
                        (Some (message_or "Deployment failed" err)))))))
    (setDeploying false).

End Deploy.

(** A callback that leaves the log of requests alone or adds to its end. *)
Definition appends_only {S A} (m : M S A) : Prop :=
  forall w, exists rest, sent (snd (m w)) = (sent w ++ rest)%list.

(** A JSON string literal: the text between double quotes. *)
Definition q (s : string) : string :=
  String JSON.quote s +:+ String JSON.quote "".

(** ** The specification's reading of a boolean input, for comparison *)

Module Spec.

(** Follows the specification's words: a case-insensitive compare of the
    trimmed text to [true]. *)
Definition coerce_bool (rawText : string) : bool :=
  bool_decide (Str.toLowerCase (Str.trim rawText) = "true").

End Spec.

(** ** More of the string library *)

Module StrExt.

(** [s.replace(pattern, replacement)] for a string [pattern]: the first
    occurrence is replaced, and [s] comes back unchanged when there is
    none.  The replacements used here contain no [$], so no replacement
    pattern applies. *)
Definition replace (s pattern replacement : string) : string :=
  match String.index 0 pattern s with
  | Some n =>
      String.substring 0 n s +:+ replacement
      +:+ String.substring (n + String.length pattern)
            (String.length s - (n + String.length pattern)) s
  | None => s
  end.

(** [items.join(separator)] *)
Fixpoint join (separator : string) (items : list string) : string :=
  match items with
  | [] => ""
  | [x] => x
  | x :: rest => x +:+ separator +:+ join separator rest
  end.

(** Decimal rendering of an integer, as a template literal produces it. *)
Definition showZ (n : Z) : string :=
  if n <? 0 then "-" +:+ Str.show (Z.to_N (- n)) else Str.show (Z.to_N n).

(** The characters [encodeURIComponent] leaves as they are: letters,
    digits and [- _ . ! ~ * ' ( )]. *)
Definition unreserved (c : ascii) : bool :=
  let n := N_of_ascii c in
  ((65 <=? n) && (n <=? 90) || (97 <=? n) && (n <=? 122)
   || (48 <=? n) && (n <=? 57)
   || (n =? 45) || (n =? 95) || (n =? 46) || (n =? 33) || (n =? 126)
   || (n =? 42) || (n =? 39) || (n =? 40) || (n =? 41))%N.

Definition hex_digit (n : N) : ascii :=
  if (n <? 10)%N then ascii_of_N (48 + n) else ascii_of_N (55 + n).

(** [%XX] for one byte. *)
Definition percent (byte : N) : list ascii :=
  ["%"%char; hex_digit (byte / 16); hex_digit (byte mod 16)].

(** One code unit of the embedded range: kept, or escaped as the bytes of
    its UTF-8 encoding (one byte below U+0080, two from there on). *)
Definition encode_unit (c : ascii) : list ascii :=
  let n := N_of_ascii c in
  if unreserved c then [c]
  else if (n <? 128)%N then percent n
  else percent (192 + n / 64) ++ percent (128 + n mod 64).

(** [encodeURIComponent(s)]; no string of the embedded range makes it
    throw. *)
Definition encodeURIComponent (s : string) : string :=
  Str.text (concat (map encode_unit (Str.chars s))).

End StrExt.

(** ** api/client.ts: the list and lookup endpoints *)

Module api_list.

(** [api.deployments.list(network?)] *)
Definition deployments {S} (net : Request.t -> reply) (network : option string)
  : M S jsval :=
  let params :=
    match network with
    | Some n =>
        if decide (n = "") then ""
        else "?network=" +:+ StrExt.encodeURIComponent n
    | None => ""
    end in
  fetchJson net (API_BASE +:+ "/deployments" +:+ params).

(** [api.artifacts.get(name)] *)
Definition artifact {S} (net : Request.t -> reply) (name : string) : M S jsval :=
  fetchJson net (API_BASE +:+ "/artifacts/" +:+ StrExt.encodeURIComponent name).

End api_list.

(** ** components/param-input.tsx *)

Module ParamInput.

Definition getPlaceholder (paramType : string) : string :=
  if decide (paramType = "address") then "0x..."
  else if Str.startsWith paramType "uint" || Str.startsWith paramType "int"
       then "0"
  else if decide (paramType = "bool") then "true/false"
  else if Str.startsWith paramType "bytes32" then "0x..."
  else if decide (paramType = "bytes") then "0x..."
  else if decide (paramType = "string") then "text"
  else "value".

Definition getInputType (paramType : string) : string :=
  if Str.startsWith paramType "uint" || Str.startsWith paramType "int"
  then "text"
  else "text".

(** The element [ParamInput] returns, with the placeholder it shows. *)
Inductive widget : Type :=
| TupleInput (placeholder : string)
| ArrayInput (placeholder : string)
| BoolInput
| BytesArea (placeholder : string)
| TextInput (inputType placeholder : string).

(** The placeholder of [TupleInput]. *)
Definition tuple_placeholder (param : ParamInfo.t) : string :=
  match ParamInfo.components param with
  | Some components =>
      "{ "
      +:+ StrExt.join ", "
            (map (fun c =>
                    String JSON.quote (ParamInfo.name c)
                    +:+ String JSON.quote ": "
                    +:+ getPlaceholder (ParamInfo.param_type c))
                 components)
      +:+ " }"
  | None => "{ }"
  end.

(** The base type and the placeholder of [ArrayInput]. *)
Definition baseType (param : ParamInfo.t) : string :=
  StrExt.replace (ParamInfo.param_type param) "[]" "".

Definition array_placeholder (param : ParamInfo.t) : string :=
  "[" +:+ getPlaceholder (baseType param) +:+ ", ...]".

(** [ParamInput]: which element is rendered for a parameter. *)
Definition render (param : ParamInfo.t) : widget :=
  match ParamInfo.components param with
  | Some (_ :: _) => TupleInput (tuple_placeholder param)
  | _ =>
      if Str.endsWith (ParamInfo.param_type param) "[]"
      then ArrayInput (array_placeholder param)
      else if decide (ParamInfo.param_type param = "bool") then BoolInput
      else if decide (ParamInfo.param_type param = "bytes")
           then BytesArea (getPlaceholder (ParamInfo.param_type param))
      else TextInput (getInputType (ParamInfo.param_type param))
                     (getPlaceholder (ParamInfo.param_type param))
  end.



End ParamInput.

(** ** components/function-form.tsx: what the form shows *)

Module FunctionFormView.

(** [disabled] of the submit button. *)
Definition submitDisabled {S} (props : FunctionForm.Props S)
  (st : FunctionForm.State) : bool :=
  FunctionForm.loading st
  || (FunctionForm.isWrite props
      && bool_decide (FunctionForm.selectedWallet st = "")).

(** The three shapes of the result box:
    [result.error ? ... : result.txHash ? ... : ...]. *)
Inductive panel : Type :=
| ErrorPanel (message : string)
| TxPanel (txHash : option jsval)
| ResultPanel (data : option jsval).

Definition resultPanel (r : FunctionForm.CallResult) : panel :=
  match FunctionForm.error r with
  | Some message =>
      if decide (message = "")
      then if Truthy.truthy (FunctionForm.txHash r)
           then TxPanel (FunctionForm.txHash r)
           else ResultPanel (FunctionForm.data r)
      else ErrorPanel message
  | None =>
      if Truthy.truthy (FunctionForm.txHash r)
      then TxPanel (FunctionForm.txHash r)
      else ResultPanel (FunctionForm.data r)
  end.

(** The value each input is rendered with: [params[input.name] ?? ""]. *)
Definition shownValue (st : FunctionForm.State) (input : ParamInfo.t) : rawval :=
  get_or_empty (FunctionForm.params st) (ParamInfo.name input).

End FunctionFormView.

(** ** lib/format.ts: relative dates *)

Module RelativeDate.

(** What [formatRelativeDate] returns: one of its own texts, or the
    locale's rendering of the date, which is left to the engine. *)
Inductive rendered : Type :=
| Text (s : string)
| LocaleDate.

(** [formatRelativeDate], as a function of [now.getTime()] and
    [date.getTime()] for a date string that parses.  [Math.floor] of the
    quotient is the integer floor of the division; the two agree while the
    difference is below 2^53 in magnitude. *)
Definition formatRelativeDate (now date : Z) : rendered :=
  let diffMs := now - date in
  let diffDays := diffMs / (1000 * 60 * 60 * 24) in
  if diffDays =? 0 then
    let diffHours := diffMs / (1000 * 60 * 60) in
    if diffHours =? 0 then
      let diffMins := diffMs / (1000 * 60) in
      if diffMins <=? 1 then Text "Just now"
      else Text (StrExt.showZ diffMins +:+ "m ago")
    else Text (StrExt.showZ diffHours +:+ "h ago")
  else if diffDays =? 1 then Text "Yesterday"
  else if diffDays <? 7 then Text (StrExt.showZ diffDays +:+ "d ago")
  else LocaleDate.

End RelativeDate.

(** ** pages/contracts.tsx: the filter tabs *)

Module ArtifactInfo.
Record t : Type := mk
  { name : string;
    source_path : string;
    has_constructor : bool;
    has_bytecode : bool;
    in_registry : bool }.
End ArtifactInfo.

Module Contracts.

Inductive FilterType : Type := all | deployed | available.

Definition filteredArtifacts (artifacts : list ArtifactInfo.t)
  (filter : FilterType) : list ArtifactInfo.t :=
  List.filter
    (fun artifact =>
       if negb (ArtifactInfo.has_bytecode artifact) then false
       else match filter with
            | deployed => ArtifactInfo.in_registry artifact
            | available => negb (ArtifactInfo.in_registry artifact)
            | all => true
            end)
    artifacts.

Definition deployedCount (artifacts : list ArtifactInfo.t) : nat :=
  length (List.filter
            (fun a => ArtifactInfo.has_bytecode a && ArtifactInfo.in_registry a)
            artifacts).

Definition availableCount (artifacts : list ArtifactInfo.t) : nat :=
  length (List.filter
            (fun a => ArtifactInfo.has_bytecode a
                      && negb (ArtifactInfo.in_registry a))
            artifacts).

(** The [count] each [FilterButton] is given. *)
Definition count (artifacts : list ArtifactInfo.t) (filter : FilterType) : nat :=
  match filter with
  | all => length (List.filter (fun a => ArtifactInfo.has_bytecode a) artifacts)
  | deployed => deployedCount artifacts
  | available => availableCount artifacts
  end.

(** What the page renders below the filter tabs, past the early return
    on [error]:
    [loading ? <CardSkeleton/> : filteredArtifacts.length === 0 ?
     <EmptyState/> : filteredArtifacts.map(...)]. *)
Inductive listing : Type :=
| CardSkeleton
| EmptyState
| Cards (shown : list ArtifactInfo.t).

Definition contractsList (loading : bool) (artifacts : list ArtifactInfo.t)
  (filter : FilterType) : listing :=
  if loading then CardSkeleton
  else match filteredArtifacts artifacts filter with
       | [] => EmptyState
       | shown => Cards shown
       end.

End Contracts.

(** * Properties *)

(** ** Strings *)

Lemma text_chars (s : string) : Str.text (Str.chars s) = s.
Proof. apply string_of_list_ascii_of_string. Qed.

Lemma chars_text (l : list ascii) : Str.chars (Str.text l) = l.
Proof. apply list_ascii_of_string_of_list_ascii. Qed.

Lemma length_text (l : list ascii) : String.length (Str.text l) = length l.
Proof. induction l as [|c l IH]; simpl; [reflexivity | now rewrite IH]. Qed.

Lemma length_chars (s : string) : length (Str.chars s) = String.length s.
Proof. rewrite <- (text_chars s) at 2. now rewrite length_text. Qed.

Lemma text_app (l1 l2 : list ascii) :
  Str.text (l1 ++ l2) = Str.text l1 +:+ Str.text l2.
Proof. induction l1 as [|c l1 IH]; simpl; [reflexivity | now rewrite IH]. Qed.

Lemma length_append (s1 s2 : string) :
  String.length (s1 +:+ s2) = (String.length s1 + String.length s2)%nat.
Proof. induction s1 as [|c s1 IH]; simpl; [reflexivity | now rewrite IH]. Qed.

Lemma slice_head (s : string) (n : nat) :
  (n <= String.length s)%nat ->
  Str.slice s 0 (Some (Z.of_nat n)) = Str.text (take n (Str.chars s)).
Proof.
  intros Hn. unfold Str.slice, Str.rel_index.
  replace (0 <? 0) with false by reflexivity.
  destruct (Z.ltb_spec (Z.of_nat n) 0) as [Hneg|_]; [lia|].
  rewrite !Z.min_l by lia.
  rewrite Z.sub_0_r, Z.max_l by lia.
  now rewrite Nat2Z.id.
Qed.

Lemma slice_tail (s : string) (n : nat) :
  (0 < n <= String.length s)%nat ->
  Str.slice s (- Z.of_nat n) None
  = Str.text (drop (String.length s - n) (Str.chars s)).
Proof.
  intros Hn. unfold Str.slice, Str.rel_index.
  destruct (Z.ltb_spec (- Z.of_nat n) 0) as [_|Hpos]; [|lia].
  rewrite Z.max_l by lia.
  replace (Z.of_nat (String.length s) - (Z.of_nat (String.length s) + - Z.of_nat n))
    with (Z.of_nat n) by lia.
  rewrite Z.max_l by lia.
  replace (Z.to_nat (Z.of_nat n)) with n by lia.
  replace (Z.to_nat (Z.of_nat (String.length s) + - Z.of_nat n))
    with (String.length s - n)%nat by lia.
  rewrite take_ge; [reflexivity|].
  rewrite length_drop, length_chars. lia.
Qed.

(** ** lib/format.ts *)

(** C9: [truncateAddress] returns a string of at most 13 code units
    unchanged; a longer one becomes its first 6 code units, then three
    dots, then its last 4 code units, which is 13 code units long. *)
Theorem truncateAddress_shape (address : string) :
  ((String.length address <= 13)%nat ->
   Format.truncateAddress address = address)
  /\ ((13 < String.length address)%nat ->
      exists first6 middle last4 : string,
        address = first6 +:+ middle +:+ last4
        /\ String.length first6 = 6%nat
        /\ String.length last4 = 4%nat
        /\ Format.truncateAddress address = first6 +:+ "..." +:+ last4
        /\ String.length (Format.truncateAddress address) = 13%nat).
Proof.
  unfold Format.truncateAddress. split; intros Hlen.
  - destruct (Nat.leb_spec (String.length address) 13); [reflexivity | lia].
  - destruct (Nat.leb_spec (String.length address) 13) as [Hle|_]; [lia|].
    change 6 with (Z.of_nat 6). change (-4) with (- Z.of_nat 4).
    rewrite slice_head, slice_tail by lia.
    set (l := Str.chars address).
    assert (Hl : length l = String.length address) by apply length_chars.
    exists (Str.text (take 6 l)),
           (Str.text (take (String.length address - 10) (drop 6 l))),
           (Str.text (drop (String.length address - 4) l)).
    assert (H6 : String.length (Str.text (take 6 l)) = 6%nat).
    { rewrite length_text, length_take. lia. }
    assert (H4 : String.length (Str.text (drop (String.length address - 4) l)) = 4%nat).
    { rewrite length_text, length_drop. lia. }
    repeat split; try assumption.
    + rewrite <- !text_app.
      rewrite <- (text_chars address) at 1. fold l. f_equal.
      rewrite <- (take_drop 6 l) at 1. f_equal.
      rewrite <- (take_drop (String.length address - 10) (drop 6 l)) at 1.
      f_equal. rewrite drop_drop. f_equal. lia.
    + rewrite !length_append, H6, H4. reflexivity.
Qed.

Lemma truncateAddress_shape_witness :
  Format.truncateAddress "0xabc" = "0xabc"
  /\ exists first6 middle last4 : string,
       "0x1234567890abcdef1234567890abcdef12345678" = first6 +:+ middle +:+ last4
       /\ String.length first6 = 6%nat
       /\ String.length last4 = 4%nat
       /\ Format.truncateAddress "0x1234567890abcdef1234567890abcdef12345678"
          = first6 +:+ "..." +:+ last4
       /\ String.length
            (Format.truncateAddress "0x1234567890abcdef1234567890abcdef12345678")
          = 13%nat.
Proof.
  split.
  - apply (truncateAddress_shape "0xabc"). simpl. lia.
  - apply (truncateAddress_shape "0x1234567890abcdef1234567890abcdef12345678").
    simpl. lia.
Defined.

Example truncateAddress_sample :
  Format.truncateAddress "0x1234567890abcdef1234567890abcdef12345678"
  = "0x1234...5678"
  /\ Format.truncateAddress "0x12345678901" = "0x12345678901"
  /\ Format.truncateAddress "0x123456789012" = "0x1234...9012".
Proof. repeat split; reflexivity. Qed.
(** ** [JSON.parse] on sample texts *)

Example parse_samples :
  JSON.parse "[1,2,3]" = Ok (JArr [JNum "1"; JNum "2"; JNum "3"])
  /\ JSON.parse (" { " +:+ q "a" +:+ " : [ true , null, -1.5e+3 ], " +:+ q "b"
                 +:+ ":{}, " +:+ q "a" +:+ ":" +:+ q "xA\n\u4e2d" +:+ " } ")
     = Ok (JObj [(units "a", JStr [120; 65; 10; 20013]%N); (units "b", JObj [])])
  /\ JSON.parse "[[[]]] " = Ok (JArr [JArr [JArr []]])
  /\ JSON.parse "[1 ,2e5]" = Ok (JArr [JNum "1"; JNum "2e5"])
  /\ JSON.parse "true" = Ok (JBool true)
  /\ map JSON.parse ["not json"; "[1,]"; "01"; "1 2"; ""; "-"; "[1"; "{,}"; "1.";
                     "{" +:+ q "k" +:+ ":1}}"; "{" +:+ q "k" +:+ " 1}"; "nul"]
     = repeat (Throw (ErrorObject "Unexpected token in JSON")) 12.
Proof. repeat split; vm_compute; reflexivity. Qed.

Example truthy_samples :
  map Truthy.truthy
      [None; Some JNull; Some (JText ""); Some (JText "0x1"); Some (JNum "0");
       Some (JNum "-0.0e7"); Some (JNum "12"); Some (JNum "1e-400");
       Some (JArr []); Some (JBool false); Some (JBuiltin "toString")]
  = [false; false; false; true; false; false; true; false; true; false; true].
Proof. vm_compute. reflexivity. Qed.

(** ** Reading a plain object *)

Lemma inherited_spec (name : string) :
  inherited name = true <-> In name prototype_keys.
Proof.
  unfold inherited. rewrite existsb_exists. split.
  - intros (k & Hk & Heq). apply String.eqb_eq in Heq. now subst.
  - intros H. exists name. split; [assumption | apply String.eqb_refl].
Qed.

Lemma get_or_empty_own (o : gmap string string) (name s : string) :
  o !! name = Some s -> get_or_empty o name = RText s.
Proof. intros H. unfold get_or_empty. now rewrite H. Qed.

Lemma get_or_empty_text (o : gmap string string) (name : string) :
  reads_text o name -> get_or_empty o name = RText (default "" (o !! name)).
Proof.
  unfold reads_text, get_or_empty. intros H.
  destruct (o !! name) as [s|]; [reflexivity|]. now rewrite H.
Qed.

Lemma get_or_empty_inherited (o : gmap string string) (name : string) :
  o !! name = None -> inherited name = true ->
  get_or_empty o name = RInherited name.
Proof. intros H1 H2. unfold get_or_empty. now rewrite H1, H2. Qed.

(** No text a built-in prints as is a JSON text: the catch of
    [parse_or_raw] hands an inherited value back as it is. *)
Lemma parse_or_raw_inherited (key : string) :
  inherited key = true -> parse_or_raw (RInherited key) = Ok (JBuiltin key).
Proof.
  intros H. apply inherited_spec in H. simpl in H.
  repeat (destruct H as [<-|H]; [vm_compute; reflexivity|]).
  destruct H.
Qed.

Example get_or_empty_samples :
  get_or_empty (<["a" := "1"]> (empty : gmap string string)) "a" = RText "1"
  /\ get_or_empty (<["a" := "1"]> (empty : gmap string string)) "b" = RText ""
  /\ get_or_empty (<["a" := "1"]> (empty : gmap string string)) "toString" = RInherited "toString"
  /\ get_or_empty (<["toString" := "x"]> (empty : gmap string string)) "toString" = RText "x"
  /\ get_or_empty (empty : gmap string string) "__proto__" = RInherited "__proto__"
  /\ raw_ToString (RInherited "constructor") = "function Object() { [native code] }".
Proof. repeat split. Qed.
(** ** Marshalling: components/function-form.tsx *)

Lemma parse_or_raw_returns (rawValue : rawval) :
  exists v, parse_or_raw rawValue = Ok v.
Proof. unfold parse_or_raw. destruct (JSON.parse _); eauto. Qed.

(** On a string the callback returns. *)
Lemma coerce_returns (input : ParamInfo.t) (rawValue : string) :
  exists v, FunctionForm.coerce input rawValue = Ok v.
Proof.
  unfold FunctionForm.coerce. simpl.
  repeat (case_decide || case_match); eauto using parse_or_raw_returns.
Qed.

(** On an inherited value the callback throws for the tag [bool], and
    hands the value on for every other tag. *)
Lemma coerce_inherited (input : ParamInfo.t) (key : string) :
  inherited key = true ->
  FunctionForm.coerce input (RInherited key)
  = if decide (ParamInfo.param_type input = "bool")
    then Throw (ErrorObject "rawValue.toLowerCase is not a function")
    else Ok (JBuiltin key).
Proof.
  intros H. unfold FunctionForm.coerce. simpl.
  destruct (decide (ParamInfo.param_type input = "bool")); [reflexivity|].
  rewrite (parse_or_raw_inherited key H). now destruct (FunctionForm.arrayOrTuple input).
Qed.

Lemma parseParam_returns (params : gmap string string) (input : ParamInfo.t) :
  reads_text params (ParamInfo.name input) ->
  exists v, FunctionForm.parseParam params input = Ok v.
Proof.
  intros H. unfold FunctionForm.parseParam.
  rewrite (get_or_empty_text _ _ H). apply coerce_returns.
Qed.

Lemma map_exn_pointwise {A B} (f : A -> exn B) (l : list A) :
  (forall x, In x l -> exists y, f x = Ok y) ->
  exists ys,
    map_exn f l = Ok ys
    /\ length ys = length l
    /\ forall (k : nat) (x : A),
         l !! k = Some x -> exists y, ys !! k = Some y /\ f x = Ok y.
Proof.
  induction l as [|x l IH]; intros Hf; simpl.
  - exists []. repeat split. intros k x Hk. now rewrite lookup_nil in Hk.
  - destruct (Hf x) as [y Hy]; [now left|].
    destruct IH as (ys & Hys & Hlen & Hnth); [intros; apply Hf; now right|].
    rewrite Hy, Hys. exists (y :: ys). repeat split.
    + simpl. now rewrite Hlen.
    + intros [|k] x' Hk; simpl in *.
      * inversion Hk; subst. eauto.
      * eauto.
Qed.




(** The three copies of the marshalling rules are the same function. *)
Lemma coerce_copies_agree (input : ParamInfo.t) (rawValue : rawval) :
  DeployModal.coerce input rawValue = FunctionForm.coerce input rawValue
  /\ Deploy.coerce input rawValue = FunctionForm.coerce input rawValue.
Proof. split; reflexivity. Qed.




(** Lower-casing to [true] means: four code units, [t], [r], [u], [e] in
    either case, and nothing around them. *)
Lemma toLowerCase_true (raw : string) :
  Str.toLowerCase raw = "true" <->
  exists c1 c2 c3 c4 : ascii,
    raw = String c1 (String c2 (String c3 (String c4 "")))
    /\ (c1 = "t" \/ c1 = "T")%char /\ (c2 = "r" \/ c2 = "R")%char
    /\ (c3 = "u" \/ c3 = "U")%char /\ (c4 = "e" \/ c4 = "E")%char.
Proof.
  assert (Hunit : forall c d : ascii,
             In d ["t"; "r"; "u"; "e"]%char ->
             Str.lower_unit c = d ->
             c = d \/ N_of_ascii c = (N_of_ascii d - 32)%N).
  { intros c d Hd Hc.
    destruct c as [[] [] [] [] [] [] [] []];
      vm_compute in Hc; subst d; simpl in Hd;
      solve [ left; reflexivity | right; reflexivity
            | exfalso; repeat (destruct Hd as [Hd|Hd]; [discriminate Hd|]);
              exact Hd ]. }
  assert (Hup : forall c d : ascii, N_of_ascii c = N_of_ascii d -> c = d).
  { intros c d H. rewrite <- (ascii_N_embedding c), <- (ascii_N_embedding d).
    now rewrite H. }
  split.
  - intros H. unfold Str.toLowerCase in H.
    apply (f_equal Str.chars) in H. rewrite chars_text in H.
    rewrite <- (text_chars raw).
    destruct (Str.chars raw) as [|c1 [|c2 [|c3 [|c4 [|c5 l]]]]];
      try discriminate H.
    injection H as H1 H2 H3 H4.
    exists c1, c2, c3, c4. split; [reflexivity|].
    apply Hunit in H1; [|simpl; tauto]. apply Hunit in H2; [|simpl; tauto].
    apply Hunit in H3; [|simpl; tauto]. apply Hunit in H4; [|simpl; tauto].
    repeat split.
    + destruct H1 as [->|H1]; [now left | right; now apply Hup].
    + destruct H2 as [->|H2]; [now left | right; now apply Hup].
    + destruct H3 as [->|H3]; [now left | right; now apply Hup].
    + destruct H4 as [->|H4]; [now left | right; now apply Hup].
  - intros (c1 & c2 & c3 & c4 & -> & [-> | ->] & [-> | ->] & [-> | ->] & [-> | ->]);
      reflexivity.
Qed.

(** C2, as the code has it: on a non-empty raw text a [bool] parameter
    becomes [true] exactly when the text itself, not trimmed, lower-cases
    to [true], and [false] for every other text. *)
Theorem coerce_bool_untrimmed (input : ParamInfo.t) (rawValue : string) :
  ParamInfo.param_type input = "bool" ->
  rawValue <> "" ->
  exists b : bool,
    FunctionForm.coerce input rawValue = Ok (JBool b)
    /\ (b = true <-> Str.toLowerCase rawValue = "true").
Proof.
  intros Hbool Hne. unfold FunctionForm.coerce. simpl.
  rewrite bool_decide_eq_false_2 by assumption.
  rewrite decide_True by assumption.
  eexists. split; [reflexivity|]. apply bool_decide_eq_true.
Qed.

Lemma coerce_bool_untrimmed_witness :
  exists b : bool,
    FunctionForm.coerce (ParamInfo.mk "flag" "bool" None) "TRUE" = Ok (JBool b)
    /\ (b = true <-> Str.toLowerCase "TRUE" = "true").
Proof.
  apply (coerce_bool_untrimmed (ParamInfo.mk "flag" "bool" None) "TRUE").
  - reflexivity.
  - discriminate.
Defined.

(** C2 fails as stated: the raw text [" true"] trims to [true], yet the
    code answers [false]. *)
Lemma coerce_bool_trim_counterexample :
  ParamInfo.param_type (ParamInfo.mk "flag" "bool" None) = "bool"
  /\ " true" <> ""
  /\ Spec.coerce_bool " true" = true
  /\ FunctionForm.coerce (ParamInfo.mk "flag" "bool" None) " true"
     = Ok (JBool false).
Proof. repeat split; (discriminate || reflexivity). Qed.

Example coerce_bool_samples :
  map (fun rawValue : string =>
         FunctionForm.coerce (ParamInfo.mk "flag" "bool" None) rawValue)
      ["true"; "True"; "TRUE"; "false"; "1"; "yes"; "true "; ""]
  = [Ok (JBool true); Ok (JBool true); Ok (JBool true); Ok (JBool false);
     Ok (JBool false); Ok (JBool false); Ok (JBool false); Ok (JBool false)].
Proof. reflexivity. Qed.







Example parseParams_order_sample :
  FunctionForm.parseParams
    (FunctionInfo.mk "f" "f(uint256,uint256)"
       [ParamInfo.mk "b" "uint256" None; ParamInfo.mk "a" "uint256" None]
       [] "view")
    {["a" := "1"; "b" := "2"]}
  = Ok [JText "2"; JText "1"]
  /\ FunctionForm.parseParams
       (FunctionInfo.mk "f" "f(uint256,bool,string)"
          [ParamInfo.mk "n" "uint256" None; ParamInfo.mk "ok" "bool" None;
           ParamInfo.mk "s" "string" None]
          [] "view")
       ∅
     = Ok [JText "0"; JBool false; JText ""].
Proof. split; vm_compute; reflexivity. Qed.

(** C1, as the code has it: for a parameter that passes the array-or-tuple
    test (its tag is not [bool]) and a non-empty raw text that
    [JSON.parse] accepts, the argument is the parsed value itself;
    elements and fields are not coerced one by one. *)
Theorem coerce_parsed_verbatim (input : ParamInfo.t) (rawValue : string)
  (v : jsval) :
  rawValue <> "" ->
  ParamInfo.param_type input <> "bool" ->
  FunctionForm.arrayOrTuple input = true ->
  JSON.parse rawValue = Ok v ->
  FunctionForm.coerce input rawValue = Ok v.
Proof.
  intros Hne Hbool Harr Hparse. unfold FunctionForm.coerce. simpl.
  rewrite bool_decide_eq_false_2 by assumption.
  rewrite decide_False by assumption. rewrite Harr.
  unfold parse_or_raw. simpl. now rewrite Hparse.
Qed.

Lemma coerce_parsed_verbatim_witness :
  FunctionForm.coerce (ParamInfo.mk "ids" "uint256[]" None) "[1,2,3]"
  = Ok (JArr [JNum "1"; JNum "2"; JNum "3"]).
Proof.
  apply (coerce_parsed_verbatim (ParamInfo.mk "ids" "uint256[]" None) "[1,2,3]").
  - discriminate.
  - simpl. discriminate.
  - reflexivity.
  - reflexivity.
Defined.

(** C1 fails as stated: the elements of [[1,2,3]] stay numbers instead of
    becoming the texts [1], [2], [3], and a field that the literal leaves
    out stays absent instead of taking the default of its type. *)
Lemma parseParams_no_recursion_counterexample :
  FunctionForm.parseParams
    (FunctionInfo.mk "f" "f(uint256[])" [ParamInfo.mk "ids" "uint256[]" None]
       [] "nonpayable")
    {["ids" := "[1,2,3]"]}
  = Ok [JArr [JNum "1"; JNum "2"; JNum "3"]]
  /\ JArr [JNum "1"; JNum "2"; JNum "3"] <> JArr [JText "1"; JText "2"; JText "3"]
  /\ FunctionForm.parseParams
       (FunctionInfo.mk "pay" "pay((address,uint256))"
          [ParamInfo.mk "p" "tuple"
             (Some [ParamInfo.mk "to" "address" None;
                    ParamInfo.mk "amount" "uint256" None])]
          [] "nonpayable")
       {["p" := "{" +:+ q "to" +:+ ":" +:+ q "0xabc" +:+ "}"]}
     = Ok [JObj [(units "to", JText "0xabc")]]
  /\ obj_get (units "amount") [(units "to", JText "0xabc")] = None
  /\ obj_get (units "amount") [(units "to", JText "0xabc")] <> Some (JText "0").
Proof.
  split; [vm_compute; reflexivity|]. split; [discriminate|].
  split; [vm_compute; reflexivity|]. split; [reflexivity|]. discriminate.
Qed.

Example parseParams_structure_sample :
  FunctionForm.parseParams
    (FunctionInfo.mk "pay" "pay((address,uint256))"
       [ParamInfo.mk "p" "tuple"
          (Some [ParamInfo.mk "to" "address" None;
                 ParamInfo.mk "amount" "uint256" None])]
       [] "nonpayable")
    {["p" := "{" +:+ q "to" +:+ ":" +:+ q "0xabc" +:+ "," +:+ q "amount" +:+ ":"
             +:+ q "5" +:+ "," +:+ q "memo" +:+ ":null}"]}
  = Ok [JObj [(units "to", JText "0xabc"); (units "amount", JText "5");
              (units "memo", JNull)]].
Proof. vm_compute; reflexivity. Qed.

(** ** Dispatch: components/function-form.tsx *)

Ltac unfold_eff :=
  unfold own, update in *;
  unfold Eff.try_finally, Eff.try_catch, Eff.bind, Eff.lift, Eff.throw,
    Eff.ret, Eff.set, Eff.get, Eff.setTimeout in *.




(** What a request returns or throws depends on the network alone, and
    its only effects are the time it takes and its entry in the log. *)
Lemma postJson_run {S} (net : Request.t -> reply) (url : string) (data : payload)
  (w w0 : World S) :
  fst (postJson net url data w) = fst (postJson net url data w0)
  /\ snd (postJson net url data w)
     = mkWorld (clock w + latency (net (Request.mk url POST (Some data))))
               (timers w) (sent w ++ [Request.mk url POST (Some data)]) (ui w).
Proof.
  unfold postJson, read_json, Eff.fetch. unfold_eff.
  destruct (outcome (net _)) as [e|r]; simpl; [now split|].
  destruct (Response.ok r); simpl.
  - destruct (Response.json r); now split.
  - destruct (Response.text r); now split.
Qed.

Lemma fetchJson_run {S} (net : Request.t -> reply) (url : string) (w w0 : World S) :
  fst (fetchJson net url w) = fst (fetchJson net url w0)
  /\ snd (fetchJson net url w)
     = mkWorld (clock w + latency (net (Request.mk url GET None)))
               (timers w) (sent w ++ [Request.mk url GET None]) (ui w).
Proof.
  unfold fetchJson, read_json, Eff.fetch. unfold_eff.
  destruct (outcome (net _)) as [e|r]; simpl; [now split|].
  destruct (Response.ok r); simpl.
  - destruct (Response.json r); now split.
  - destruct (Response.text r); now split.
Qed.

(** Replace a collaborator call in the goal by its result [r] and the
    world it leaves, keeping what is known about [r]. *)
Ltac run_post r Hr :=
  match goal with
  | |- context [postJson ?net ?url ?data ?w] =>
      let Hw := fresh "Hworld" in
      let w' := fresh "w" in
      pose proof (proj2 (postJson_run net url data w w)) as Hw;
      destruct (postJson net url data w) as [r w'] eqn:Hr;
      simpl in Hw; subst w'
  end.

(** C8: a submission never lets an exception out; when the marshalling
    has returned the arguments and the call or send collaborator throws,
    the result shown is a failure whose message is the message of the
    thrown error, or [Unknown error] when what was thrown is no error
    object; [postJson] hands on what a failed transport throws, and for
    a response that is not ok it throws an error whose message is the
    body text, or [API error: ] followed by the status when the body is
    empty. *)
Theorem collaborator_failure_reported (net : Request.t -> reply)
  (props : FunctionForm.Props DeploymentDetail.State)
  (w : World DeploymentDetail.State) :
  (exists w', FunctionForm.handleSubmit DeploymentDetail.form_mount net props w
              = (Ok tt, w'))
  /\ (forall (args : list jsval) (e : thrown)
             (w0 w1 : World DeploymentDetail.State),
        FunctionForm.parseParams (FunctionForm.func props)
          (FunctionForm.params (DeploymentDetail.form (ui w))) = Ok args ->
        (FunctionForm.isWrite props = true ->
         FunctionForm.selectedWallet (DeploymentDetail.form (ui w)) <> "") ->
        (if FunctionForm.isWrite props
         then api.deployments.send net (FunctionForm.deploymentId props)
                (SendRequest.mk (FunctionInfo.name (FunctionForm.func props))
                   args
                   (FunctionForm.selectedWallet (DeploymentDetail.form (ui w)))
                   (or_undefined
                      (FunctionForm.value (DeploymentDetail.form (ui w)))))
         else api.deployments.call net (FunctionForm.deploymentId props)
                (CallRequest.mk (FunctionInfo.name (FunctionForm.func props))
                   args)) w0
        = (Throw e, w1) ->
        exists w',
          FunctionForm.handleSubmit DeploymentDetail.form_mount net props w
          = (Ok tt, w')
          /\ FunctionForm.result (DeploymentDetail.form (ui w'))
             = Some (FunctionForm.mkResult false None None
                       (Some match e with
                             | ErrorObject message => message
                             | OtherThrown _ => "Unknown error"
                             end))
          /\ FunctionForm.loading (DeploymentDetail.form (ui w')) = false)
  /\ (forall (url : string) (data : payload) (e : thrown),
        outcome (net (Request.mk url POST (Some data))) = Rejected e ->
        exists w1, postJson net url data w = (Throw e, w1))
  /\ (forall (url : string) (data : payload) (r : Response.t) (body : string),
        outcome (net (Request.mk url POST (Some data))) = Responded r ->
        Response.ok r = false ->
        Response.text r = Ok body ->
        exists w1,
          postJson net url data w
          = (Throw (ErrorObject
                      (if decide (body = "")
                       then "API error: " +:+ Str.show (Response.status r)
                       else body)), w1)).
Proof.
  split; [|split; [|split]].
  - unfold FunctionForm.handleSubmit, api.deployments.send, api.deployments.call.
    unfold_eff. simpl.
    destruct (FunctionForm.parseParams _ _) as [args|e0]; simpl; [|eauto].
    destruct (FunctionForm.isWrite props).
    + destruct (decide _) as [Hw|Hw]; simpl; [eauto|].
      run_post r Hr. destruct r as [response|e]; simpl; [|eauto].
      destruct (get_field response "tx_hash") as [tx_hash|e]; simpl; [|eauto].
      destruct (FunctionForm.onTxSent props) as [f|]; simpl; [|eauto].
      destruct (f tx_hash _) as [[[]|e] w']; simpl; eauto.
    + run_post r Hr. destruct r as [response|e]; simpl; [|eauto].
      destruct (get_field response "result") as [data|e]; simpl; eauto.
  - intros args e w0 w1 Hargs Hwallet Hthrow.
    unfold FunctionForm.handleSubmit, api.deployments.send, api.deployments.call in *.
    unfold_eff. simpl. rewrite Hargs.
    destruct (FunctionForm.isWrite props).
    + rewrite decide_False by (now apply Hwallet). simpl.
      run_post r Hr.
      match type of Hr with postJson ?n ?u ?d ?w2 = _ =>
        pose proof (proj1 (postJson_run n u d w2 w0)) as Hsame end.
      rewrite Hr, Hthrow in Hsame. simpl in Hsame. subst r. simpl.
      eexists. split; [reflexivity|]. simpl. split; [|reflexivity].
      now destruct e.
    + run_post r Hr.
      match type of Hr with postJson ?n ?u ?d ?w2 = _ =>
        pose proof (proj1 (postJson_run n u d w2 w0)) as Hsame end.
      rewrite Hr, Hthrow in Hsame. simpl in Hsame. subst r. simpl.
      eexists. split; [reflexivity|]. simpl. split; [|reflexivity].
      now destruct e.
  - intros url data e Hout.
    unfold postJson, read_json, Eff.fetch. unfold_eff.
    rewrite Hout. simpl. eauto.
  - intros url data r body Hout Hok Hbody.
    unfold postJson, read_json, Eff.fetch. unfold_eff.
    rewrite Hout, Hok. simpl. rewrite Hbody. eauto.
Qed.
Lemma collaborator_failure_reported_witness :
  (exists w',
     FunctionForm.handleSubmit DeploymentDetail.form_mount
       (fun _ => {| outcome :=
                      Responded (Response.mk false 500 (Ok "execution reverted")
                                   (Throw (ErrorObject "not json")));
                    latency := 40 |})
       (DeploymentDetail.form_props (Deployment.mk 7 "Token" "mainnet" "0xabc" 1)
          (FunctionInfo.mk "mint" "mint(uint256)"
             [ParamInfo.mk "amount" "uint256" None] [] "nonpayable")
          [] DeploymentDetail.write)
       (mkWorld 100 [] []
          (DeploymentDetail.mkState
             (Some (Deployment.mk 7 "Token" "mainnet" "0xabc" 1)) (JArr []) false
             None DeploymentDetail.write
             (FunctionForm.mkState {["amount" := "5"]} "alice" "" false true None)))
     = (Ok tt, w')
     /\ FunctionForm.result (DeploymentDetail.form (ui w'))
        = Some (FunctionForm.mkResult false None None (Some "execution reverted"))
     /\ FunctionForm.loading (DeploymentDetail.form (ui w')) = false)
  /\ (exists w',
        FunctionForm.handleSubmit DeploymentDetail.form_mount
          (fun _ => {| outcome := Rejected (OtherThrown (JText "oops"));
                       latency := 3 |})
          (DeploymentDetail.form_props (Deployment.mk 7 "Token" "mainnet" "0xabc" 1)
             (FunctionInfo.mk "totalSupply" "totalSupply()" [] [] "view")
             [] DeploymentDetail.read)
          (mkWorld 100 [] []
             (DeploymentDetail.mkState
                (Some (Deployment.mk 7 "Token" "mainnet" "0xabc" 1)) (JArr []) false
                None DeploymentDetail.read
                (FunctionForm.mkState ∅ "" "" false true None)))
        = (Ok tt, w')
        /\ FunctionForm.result (DeploymentDetail.form (ui w'))
           = Some (FunctionForm.mkResult false None None (Some "Unknown error"))
        /\ FunctionForm.loading (DeploymentDetail.form (ui w')) = false)
  /\ (exists w1,
        postJson
          (fun _ => {| outcome :=
                         Responded (Response.mk false 502 (Ok "")
                                      (Throw (ErrorObject "not json")));
                       latency := 40 |})
          "/api/deploy"
          (CallBody (CallRequest.mk "totalSupply" []))
          (mkWorld 100 [] []
             (DeploymentDetail.mkState None (JArr []) false None
                DeploymentDetail.read
                (FunctionForm.mkState ∅ "" "" false true None)))
        = (Throw (ErrorObject "API error: 502"), w1)).
Proof.
  split; [|split].
  - exact (proj1 (proj2 (collaborator_failure_reported
                (fun _ => {| outcome :=
                               Responded (Response.mk false 500
                                            (Ok "execution reverted")
                                            (Throw (ErrorObject "not json")));
                             latency := 40 |})
                (DeploymentDetail.form_props
                   (Deployment.mk 7 "Token" "mainnet" "0xabc" 1)
                   (FunctionInfo.mk "mint" "mint(uint256)"
                      [ParamInfo.mk "amount" "uint256" None] [] "nonpayable")
                   [] DeploymentDetail.write)
                (mkWorld 100 [] []
                   (DeploymentDetail.mkState
                      (Some (Deployment.mk 7 "Token" "mainnet" "0xabc" 1))
                      (JArr []) false None DeploymentDetail.write
                      (FunctionForm.mkState {["amount" := "5"]} "alice" ""
                         false true None)))))
             [JText "5"]
             (ErrorObject "execution reverted")
             (mkWorld 0 [] []
                (DeploymentDetail.mkState None JNull false None
                   DeploymentDetail.read
                   (FunctionForm.mkState ∅ "" "" false false None)))
             (mkWorld 40 [] [Request.mk "/api/deployments/7/send" POST
                               (Some (SendBody (SendRequest.mk "mint" [JText "5"]
                                                  "alice" None)))]
                (DeploymentDetail.mkState None JNull false None
                   DeploymentDetail.read
                   (FunctionForm.mkState ∅ "" "" false false None)))
             eq_refl
             (fun _ H => ltac:(discriminate H))
             eq_refl).
  - exact (proj1 (proj2 (collaborator_failure_reported
                (fun _ => {| outcome := Rejected (OtherThrown (JText "oops"));
                             latency := 3 |})
                (DeploymentDetail.form_props
                   (Deployment.mk 7 "Token" "mainnet" "0xabc" 1)
                   (FunctionInfo.mk "totalSupply" "totalSupply()" [] [] "view")
                   [] DeploymentDetail.read)
                (mkWorld 100 [] []
                   (DeploymentDetail.mkState
                      (Some (Deployment.mk 7 "Token" "mainnet" "0xabc" 1))
                      (JArr []) false None DeploymentDetail.read
                      (FunctionForm.mkState ∅ "" "" false true None)))))
             []
             (OtherThrown (JText "oops"))
             (mkWorld 0 [] []
                (DeploymentDetail.mkState None JNull false None
                   DeploymentDetail.read
                   (FunctionForm.mkState ∅ "" "" false false None)))
             (mkWorld 3 [] [Request.mk "/api/deployments/7/call" POST
                              (Some (CallBody (CallRequest.mk "totalSupply" [])))]
                (DeploymentDetail.mkState None JNull false None
                   DeploymentDetail.read
                   (FunctionForm.mkState ∅ "" "" false false None)))
             eq_refl
             (fun H => ltac:(discriminate H))
             eq_refl).
  - apply (proj2 (proj2 (proj2 (collaborator_failure_reported
                (fun _ => {| outcome :=
                               Responded (Response.mk false 502 (Ok "")
                                            (Throw (ErrorObject "not json")));
                             latency := 40 |})
                (DeploymentDetail.form_props
                   (Deployment.mk 7 "Token" "mainnet" "0xabc" 1)
                   (FunctionInfo.mk "mint" "mint(uint256)" [] [] "nonpayable")
                   [] DeploymentDetail.write)
                (mkWorld 100 [] []
                   (DeploymentDetail.mkState None (JArr []) false None
                      DeploymentDetail.read
                      (FunctionForm.mkState ∅ "" "" false true None))))))
             "/api/deploy" (CallBody (CallRequest.mk "totalSupply" []))
             (Response.mk false 502 (Ok "") (Throw (ErrorObject "not json"))) "");
      reflexivity.
Defined.

Example handleSubmit_samples :
  (* a thrown value that is no error object *)
  FunctionForm.result
    (DeploymentDetail.form
       (ui (snd (FunctionForm.handleSubmit DeploymentDetail.form_mount
                   (fun _ => {| outcome := Rejected (OtherThrown (JText "oops"));
                                latency := 3 |})
                   (DeploymentDetail.form_props
                      (Deployment.mk 7 "Token" "mainnet" "0xabc" 1)
                      (FunctionInfo.mk "totalSupply" "totalSupply()" [] [] "view")
                      [] DeploymentDetail.read)
                   (mkWorld 100 [] []
                      (DeploymentDetail.mkState
                         (Some (Deployment.mk 7 "Token" "mainnet" "0xabc" 1))
                         (JArr []) false None DeploymentDetail.read
                         (FunctionForm.mkState ∅ "" "" false true None)))))))
  = Some (FunctionForm.mkResult false None None (Some "Unknown error"))
  (* a read that succeeds *)
  /\ FunctionForm.handleSubmit DeploymentDetail.form_mount
       (fun _ => {| outcome :=
                      Responded
                        (Response.mk true 200 (Ok "")
                           (Ok (JObj [(units "result", JText "1000")])));
                    latency := 3 |})
       (DeploymentDetail.form_props
          (Deployment.mk 7 "Token" "mainnet" "0xabc" 1)
          (FunctionInfo.mk "totalSupply" "totalSupply()" [] [] "view")
          [] DeploymentDetail.read)
       (mkWorld 100 [] []
          (DeploymentDetail.mkState
             (Some (Deployment.mk 7 "Token" "mainnet" "0xabc" 1))
             (JArr []) false None DeploymentDetail.read
             (FunctionForm.mkState ∅ "" "" false true None)))
     = (Ok tt,
        mkWorld 103 []
          [Request.mk "/api/deployments/7/call" POST
             (Some (CallBody (CallRequest.mk "totalSupply" [])))]
          (DeploymentDetail.mkState
             (Some (Deployment.mk 7 "Token" "mainnet" "0xabc" 1))
             (JArr []) false None DeploymentDetail.read
             (FunctionForm.mkState ∅ "" "" false true
                (Some (FunctionForm.mkResult true (Some (JText "1000")) None None))))).
Proof. split; vm_compute; reflexivity. Qed.

(** ** The optional [value] of a write or a deployment *)

Lemma or_undefined_cases (value : string) :
  (value = "" -> or_undefined value = None)
  /\ (value <> "" -> or_undefined value = Some value).
Proof.
  unfold or_undefined. split; intros H.
  - now rewrite decide_True.
  - now rewrite decide_False.
Qed.

Lemma submit_sends_value {S} (mt : Mount S FunctionForm.State)
  (net : Request.t -> reply) (props : FunctionForm.Props S) (w : World S)
  (args : list jsval) :
  FunctionForm.isWrite props = true ->
  FunctionForm.selectedWallet (get_own mt (ui w)) <> "" ->
  (forall f x, FunctionForm.onTxSent props = Some f -> appends_only (f x)) ->
  FunctionForm.parseParams (FunctionForm.func props)
    (FunctionForm.params (get_own mt (ui w))) = Ok args ->
  exists rest,
    sent (snd (FunctionForm.handleSubmit mt net props w))
    = (sent w
       ++ Request.mk
            (API_BASE +:+ "/deployments/"
             +:+ Str.show (FunctionForm.deploymentId props) +:+ "/send")
            POST
            (Some (SendBody
                     (SendRequest.mk (FunctionInfo.name (FunctionForm.func props))
                        args (FunctionForm.selectedWallet (get_own mt (ui w)))
                        (or_undefined (FunctionForm.value (get_own mt (ui w)))))))
          :: rest)%list.
Proof.
  intros Hwrite Hwallet Hcb Hargs.
  unfold FunctionForm.handleSubmit, api.deployments.send. unfold_eff. simpl.
  rewrite Hargs, Hwrite. rewrite decide_False by assumption. simpl.
  run_post r Hr. destruct r as [response|e]; simpl; [|now exists []].
  destruct (get_field response "tx_hash") as [tx_hash|e]; simpl; [|now exists []].
  destruct (FunctionForm.onTxSent props) as [f|] eqn:Hf; simpl; [|now exists []].
  match goal with |- context [f tx_hash ?w2] =>
    destruct (Hcb f tx_hash eq_refl w2) as [rest Hrest];
    destruct (f tx_hash w2) as [[[]|e] w3] end;
    simpl in *; exists rest; rewrite Hrest, <- app_assoc; reflexivity.
Qed.

(** A marshalling that throws ends the submission before any request:
    the handler returns, and the log, the timers and the clock are as
    they were. *)
Lemma submit_throw_sends_nothing {S} (mt : Mount S FunctionForm.State)
  (net : Request.t -> reply) (props : FunctionForm.Props S) (w : World S)
  (e : thrown) :
  FunctionForm.parseParams (FunctionForm.func props)
    (FunctionForm.params (get_own mt (ui w))) = Throw e ->
  exists w',
    FunctionForm.handleSubmit mt net props w = (Ok tt, w')
    /\ sent w' = sent w /\ timers w' = timers w /\ clock w' = clock w.
Proof.
  intros Hargs.
  unfold FunctionForm.handleSubmit. unfold_eff. simpl.
  rewrite Hargs. simpl. eexists. split; [reflexivity|]. now simpl.
Qed.

Lemma modal_sends_value {S} (mt : Mount S DeployModal.State)
  (net : Request.t -> reply) (props : DeployModal.Props S) (w : World S)
  (args : list jsval) :
  (forall d, appends_only (DeployModal.onSuccess props d)) ->
  DeployModal.parseConstructorArgs (get_own mt (ui w)) = Ok args ->
  exists rest,
    sent (snd (DeployModal.handleDeploy mt net props w))
    = (sent w
       ++ Request.mk (API_BASE +:+ "/deploy") POST
            (Some (DeployBody
                     (DeployRequest.mk (DeployModal.artifactName props)
                        (DeployModal.selectedNetwork (get_own mt (ui w)))
                        (DeployModal.selectedWallet (get_own mt (ui w)))
                        args
                        (or_undefined (DeployModal.value (get_own mt (ui w)))))))
          :: rest)%list.
Proof.
  intros Hcb Hargs.
  unfold DeployModal.handleDeploy, api.deploy. unfold_eff. simpl.
  rewrite Hargs. simpl.
  run_post r Hr. destruct r as [response|e]; simpl; [|now exists []].
  destruct (get_field response "contract_address") as [addr|e]; simpl;
    [|now exists []].
  destruct (Truthy.truthy addr); simpl; [|now exists []].
  destruct (get_field response "tx_hash") as [tx_hash|e]; simpl; [|now exists []].
  match goal with |- context [DeployModal.onSuccess props ?d ?w2] =>
    destruct (Hcb d w2) as [rest Hrest];
    destruct (DeployModal.onSuccess props d w2) as [[[]|e] w3] end;
    simpl in *; exists rest; rewrite Hrest, <- app_assoc; reflexivity.
Qed.

Lemma modal_throw_sends_nothing {S} (mt : Mount S DeployModal.State)
  (net : Request.t -> reply) (props : DeployModal.Props S) (w : World S)
  (e : thrown) :
  DeployModal.parseConstructorArgs (get_own mt (ui w)) = Throw e ->
  exists w',
    DeployModal.handleDeploy mt net props w = (Ok tt, w')
    /\ sent w' = sent w /\ timers w' = timers w /\ clock w' = clock w.
Proof.
  intros Hargs.
  unfold DeployModal.handleDeploy. unfold_eff. simpl.
  rewrite Hargs. simpl. eexists. split; [reflexivity|]. now simpl.
Qed.

Lemma page_sends_value (net : Request.t -> reply) (w : World Deploy.State)
  (args : list jsval) :
  Deploy.parseConstructorArgs (ui w) = Ok args ->
  sent (snd (Deploy.handleDeploy net w))
  = (sent w
     ++ [Request.mk (API_BASE +:+ "/deploy") POST
           (Some (DeployBody
                    (DeployRequest.mk (Deploy.selectedArtifact (ui w))
                       (Deploy.selectedNetwork (ui w))
                       (Deploy.selectedWallet (ui w))
                       args
                       (or_undefined (Deploy.value (ui w))))))])%list.
Proof.
  intros Hargs.
  unfold Deploy.handleDeploy, api.deploy. unfold_eff. simpl.
  rewrite Hargs. simpl.
  run_post r Hr. destruct r as [response|e]; simpl; [|reflexivity].
  destruct (get_field response "tx_hash"); simpl; [|reflexivity].
  destruct (get_field response "contract_address"); simpl; [|reflexivity].
  destruct (get_field response "deployment_id"); simpl; reflexivity.
Qed.

Lemma page_throw_sends_nothing (net : Request.t -> reply)
  (w : World Deploy.State) (e : thrown) :
  Deploy.parseConstructorArgs (ui w) = Throw e ->
  exists w',
    Deploy.handleDeploy net w = (Ok tt, w')
    /\ sent w' = sent w /\ timers w' = timers w /\ clock w' = clock w.
Proof.
  intros Hargs.
  unfold Deploy.handleDeploy. unfold_eff. simpl.
  rewrite Hargs. simpl. eexists. split; [reflexivity|]. now simpl.
Qed.

(** C10: whenever a write submission, the deployment modal or the
    deployment page sends its request (the marshalling of the arguments
    has returned; for a write a wallet is selected), the request carries
    the marshalled arguments and has no [value] field when the value
    entered is the empty string, and carries the entered string unchanged
    otherwise. *)
Theorem empty_value_is_omitted (net : Request.t -> reply) :
  (forall S (mt : Mount S FunctionForm.State) (props : FunctionForm.Props S)
          (w : World S) (args : list jsval),
      FunctionForm.isWrite props = true ->
      FunctionForm.selectedWallet (get_own mt (ui w)) <> "" ->
      (forall f x, FunctionForm.onTxSent props = Some f -> appends_only (f x)) ->
      FunctionForm.parseParams (FunctionForm.func props)
        (FunctionForm.params (get_own mt (ui w))) = Ok args ->
      exists (request : SendRequest.t) (rest : list Request.t),
        sent (snd (FunctionForm.handleSubmit mt net props w))
        = (sent w
           ++ Request.mk
                (API_BASE +:+ "/deployments/"
                 +:+ Str.show (FunctionForm.deploymentId props) +:+ "/send")
                POST (Some (SendBody request))
              :: rest)%list
        /\ SendRequest.params request = args
        /\ (FunctionForm.value (get_own mt (ui w)) = "" ->
            SendRequest.value request = None)
        /\ (FunctionForm.value (get_own mt (ui w)) <> "" ->
            SendRequest.value request
            = Some (FunctionForm.value (get_own mt (ui w)))))
  /\ (forall S (mt : Mount S DeployModal.State) (props : DeployModal.Props S)
             (w : World S) (args : list jsval),
        (forall d, appends_only (DeployModal.onSuccess props d)) ->
        DeployModal.parseConstructorArgs (get_own mt (ui w)) = Ok args ->
        exists (request : DeployRequest.t) (rest : list Request.t),
          sent (snd (DeployModal.handleDeploy mt net props w))
          = (sent w
             ++ Request.mk (API_BASE +:+ "/deploy") POST (Some (DeployBody request))
                :: rest)%list
          /\ DeployRequest.constructor_args request = args
          /\ (DeployModal.value (get_own mt (ui w)) = "" ->
              DeployRequest.value request = None)
          /\ (DeployModal.value (get_own mt (ui w)) <> "" ->
              DeployRequest.value request
              = Some (DeployModal.value (get_own mt (ui w)))))
  /\ (forall (w : World Deploy.State) (args : list jsval),
        Deploy.parseConstructorArgs (ui w) = Ok args ->
        exists request : DeployRequest.t,
          sent (snd (Deploy.handleDeploy net w))
          = (sent w
             ++ [Request.mk (API_BASE +:+ "/deploy") POST
                   (Some (DeployBody request))])%list
          /\ DeployRequest.constructor_args request = args
          /\ (Deploy.value (ui w) = "" -> DeployRequest.value request = None)
          /\ (Deploy.value (ui w) <> "" ->
              DeployRequest.value request = Some (Deploy.value (ui w)))).
Proof.
  split; [|split].
  - intros S mt props w args Hwrite Hwallet Hcb Hargs.
    destruct (submit_sends_value mt net props w args Hwrite Hwallet Hcb Hargs)
      as (rest & Hsent).
    eexists _, rest. split; [exact Hsent|]. simpl. split; [reflexivity|].
    apply or_undefined_cases.
  - intros S mt props w args Hcb Hargs.
    destruct (modal_sends_value mt net props w args Hcb Hargs) as (rest & Hsent).
    eexists _, rest. split; [exact Hsent|]. simpl. split; [reflexivity|].
    apply or_undefined_cases.
  - intros w args Hargs. pose proof (page_sends_value net w args Hargs) as Hsent.
    eexists. split; [exact Hsent|]. simpl. split; [reflexivity|].
    apply or_undefined_cases.
Qed.

Example handleDeploy_samples :
  (* the modal reports a deployed contract to its parent *)
  DeployModal.handleDeploy mounted_alone
    (fun _ => {| outcome :=
                   Responded
                     (Response.mk true 200 (Ok "")
                        (Ok (JObj [(units "tx_hash", JText "0xfeed");
                                   (units "contract_address", JText "0xc0de");
                                   (units "deployment_id", JNum "3")])));
                 latency := 9 |})
    (DeployModal.mkProps "Token"
       (fun d => Eff.set (DeployModal.setDeployError
                            (Some (DeployModal.network d)))))
    (mkWorld 0 [] []
       (DeployModal.mkState
          (Some (ArtifactDetails.mk "Token" "src/Token.sol" JNull
                   (ArtifactDetails.ctor_info (ConstructorInfo.mk
                            [ParamInfo.mk "supply" "uint256" None;
                             ParamInfo.mk "owners" "address[]" None]
                            "payable"))
                   true false))
          "mainnet" "alice" {["supply" := "1000"]} "5" false None))
  = (Ok tt,
     mkWorld 9 []
       [Request.mk "/api/deploy" POST
          (Some (DeployBody
                   (DeployRequest.mk "Token" "mainnet" "alice"
                      [JText "1000"; JText ""] (Some "5"))))]
       (DeployModal.mkState
          (Some (ArtifactDetails.mk "Token" "src/Token.sol" JNull
                   (ArtifactDetails.ctor_info (ConstructorInfo.mk
                            [ParamInfo.mk "supply" "uint256" None;
                             ParamInfo.mk "owners" "address[]" None]
                            "payable"))
                   true false))
          "mainnet" "alice" {["supply" := "1000"]} "5" false (Some "mainnet")))
  (* the page keeps the failure text of the backend *)
  /\ Deploy.deployResult
       (ui (snd (Deploy.handleDeploy
                   (fun _ => {| outcome :=
                                  Responded
                                    (Response.mk false 400 (Ok "no bytecode")
                                       (Throw (ErrorObject "not json")));
                                latency := 9 |})
                   (mkWorld 0 [] []
                      (Deploy.mkState "Token" None "mainnet" "alice" ∅ "" false
                         None)))))
     = Some (Deploy.mkResult false None None None (Some "no bytecode")).
Proof. split; vm_compute; reflexivity. Qed.

Lemma handleTxSent_appends_only : appends_only DeploymentDetail.handleTxSent.
Proof.
  intros w. exists []. unfold DeploymentDetail.handleTxSent. unfold_eff.
  destruct (DeploymentDetail.deployment (ui w)); simpl; now rewrite app_nil_r.
Qed.

Lemma empty_value_is_omitted_witness :
  (exists (request : SendRequest.t) (rest : list Request.t),
     sent (snd (FunctionForm.handleSubmit DeploymentDetail.form_mount
                  (fun _ => {| outcome := Rejected (ErrorObject "offline");
                               latency := 5 |})
                  (DeploymentDetail.form_props
                     (Deployment.mk 7 "Token" "mainnet" "0xabc" 1)
                     (FunctionInfo.mk "deposit" "deposit()" [] [] "payable")
                     [] DeploymentDetail.write)
                  (mkWorld 100 [] []
                     (DeploymentDetail.mkState
                        (Some (Deployment.mk 7 "Token" "mainnet" "0xabc" 1))
                        (JArr []) false None DeploymentDetail.write
                        (FunctionForm.mkState ∅ "alice" "" false true None)))))
     = ([] ++ Request.mk "/api/deployments/7/send" POST (Some (SendBody request))
           :: rest)%list
     /\ SendRequest.value request = None)
  /\ (exists (request : DeployRequest.t) (rest : list Request.t),
        sent (snd (DeployModal.handleDeploy mounted_alone
                     (fun _ => {| outcome := Rejected (ErrorObject "offline");
                                  latency := 5 |})
                     (DeployModal.mkProps "Token" (fun _ => Eff.ret tt))
                     (mkWorld 100 [] []
                        (DeployModal.mkState None "mainnet" "alice" ∅ "" false
                           None))))
        = ([] ++ Request.mk "/api/deploy" POST (Some (DeployBody request))
              :: rest)%list
        /\ DeployRequest.value request = None)
  /\ (exists request : DeployRequest.t,
        sent (snd (Deploy.handleDeploy
                     (fun _ => {| outcome := Rejected (ErrorObject "offline");
                                  latency := 5 |})
                     (mkWorld 100 [] []
                        (Deploy.mkState "Token" None "mainnet" "alice" ∅
                           "1000000000000000000" false None))))
        = ([] ++ [Request.mk "/api/deploy" POST (Some (DeployBody request))])%list
        /\ DeployRequest.value request = Some "1000000000000000000").
Proof.
  split; [|split].
  - destruct (proj1 (empty_value_is_omitted
                       (fun _ => {| outcome := Rejected (ErrorObject "offline");
                                    latency := 5 |}))
                _ DeploymentDetail.form_mount
                (DeploymentDetail.form_props
                   (Deployment.mk 7 "Token" "mainnet" "0xabc" 1)
                   (FunctionInfo.mk "deposit" "deposit()" [] [] "payable")
                   [] DeploymentDetail.write)
                (mkWorld 100 [] []
                   (DeploymentDetail.mkState
                      (Some (Deployment.mk 7 "Token" "mainnet" "0xabc" 1))
                      (JArr []) false None DeploymentDetail.write
                      (FunctionForm.mkState ∅ "alice" "" false true None)))
                [])
      as (request & rest & Hsent & _ & Hnone & _).
    + reflexivity.
    + simpl. discriminate.
    + intros f x Hf. injection Hf as <-. apply handleTxSent_appends_only.
    + reflexivity.
    + exists request, rest. split; [exact Hsent|]. apply Hnone. reflexivity.
  - destruct (proj1 (proj2 (empty_value_is_omitted
                       (fun _ => {| outcome := Rejected (ErrorObject "offline");
                                    latency := 5 |})))
                _ mounted_alone
                (DeployModal.mkProps "Token" (fun _ => Eff.ret tt))
                (mkWorld 100 [] []
                   (DeployModal.mkState None "mainnet" "alice" ∅ "" false None))
                [])
      as (request & rest & Hsent & _ & Hnone & _).
    + intros d w. exists []. simpl. now rewrite app_nil_r.
    + reflexivity.
    + exists request, rest. split; [exact Hsent|]. apply Hnone. reflexivity.
  - destruct (proj2 (proj2 (empty_value_is_omitted
                       (fun _ => {| outcome := Rejected (ErrorObject "offline");
                                    latency := 5 |})))
                (mkWorld 100 [] []
                   (Deploy.mkState "Token" None "mainnet" "alice" ∅
                      "1000000000000000000" false None))
                [])
      as (request & Hsent & _ & _ & Hsome).
    + reflexivity.
    + exists request. split; [exact Hsent|]. apply Hsome. simpl. discriminate.
Defined.

(** ** History refresh: pages/deployment-details.tsx *)

Lemma loadHistory_run (net : Request.t -> reply) (id : N)
  (w : World DeploymentDetail.State) :
  exists w',
    DeploymentDetail.loadHistory net id w = (Ok tt, w')
    /\ (sent w'
        = sent w
          ++ [Request.mk (API_BASE +:+ "/deployments/" +:+ Str.show id +:+ "/history")
                GET None])%list
    /\ timers w' = timers w
    /\ (forall h,
          fst (api.deployments.getHistory net id w) = Ok h ->
          DeploymentDetail.history (ui w') = h)
    /\ (forall e,
          fst (api.deployments.getHistory net id w) = Throw e ->
          ui w' = ui w).
Proof.
  unfold DeploymentDetail.loadHistory, api.deployments.getHistory. unfold_eff.
  match goal with |- context [fetchJson ?n ?u ?w0] =>
    pose proof (proj2 (fetchJson_run n u w0 w0)) as Hworld;
    destruct (fetchJson n u w0) as [r w1] end.
  simpl in Hworld. subst w1.
  destruct r as [h|e]; simpl; eexists; (split; [reflexivity|]); simpl;
    (split; [reflexivity|]); (split; [reflexivity|]); split;
    intros x Hx; inversion Hx; subst; reflexivity.
Qed.

(** C7: on the deployment page, a write that succeeds adds exactly one
    timer, due 2000 ms after the moment the success is recorded, whose
    callback loads the history of that deployment; a read, and any
    submission that fails, adds none.  The event loop cannot run that
    timer before it is due; when it runs, it asks the history
    collaborator once and, if that returns a list, the list replaces
    the displayed history (a failure leaves the page as it was). *)
Theorem write_success_schedules_refresh (net : Request.t -> reply)
  (d : Deployment.t) (func : FunctionInfo.t) (wallets : list Wallet.t)
  (tab : DeploymentDetail.InteractTab) (w : World DeploymentDetail.State) :
  DeploymentDetail.deployment (ui w) = Some d ->
  (exists (w' : World DeploymentDetail.State) (r : FunctionForm.CallResult),
     FunctionForm.handleSubmit DeploymentDetail.form_mount net
       (DeploymentDetail.form_props d func wallets tab) w = (Ok tt, w')
     /\ FunctionForm.result (DeploymentDetail.form (ui w')) = Some r
     /\ (tab = DeploymentDetail.write ->
         FunctionForm.success r = true ->
         timers w'
         = (timers w
            ++ [{| due := clock w' + 2000;
                   callback := LoadHistoryTask (Deployment.id d) |}])%list)
     /\ (tab = DeploymentDetail.read \/ FunctionForm.success r = false ->
         timers w' = timers w))
  /\ (forall (w2 w3 : World DeploymentDetail.State) (i : nat) (t : timer)
             (out : exn unit),
        timers w2 !! i = Some t ->
        callback t = LoadHistoryTask (Deployment.id d) ->
        DeploymentDetail.fire net i w2 = Some (out, w3) ->
        (due t <= clock w2)%N
        /\ out = Ok tt
        /\ timers w3 = delete i (timers w2)
        /\ (sent w3
            = sent w2
              ++ [Request.mk (API_BASE +:+ "/deployments/"
                              +:+ Str.show (Deployment.id d) +:+ "/history")
                    GET None])%list
        /\ (forall h,
              fst (api.deployments.getHistory net (Deployment.id d) w2) = Ok h ->
              DeploymentDetail.history (ui w3) = h)
        /\ (forall e,
              fst (api.deployments.getHistory net (Deployment.id d) w2) = Throw e ->
              ui w3 = ui w2)).
Proof.
  intros Hdep. split.
  - unfold FunctionForm.handleSubmit, api.deployments.send, api.deployments.call,
      DeploymentDetail.form_props, DeploymentDetail.handleTxSent.
    unfold_eff. simpl.
    destruct (FunctionForm.parseParams func
                (FunctionForm.params (DeploymentDetail.form (ui w))))
      as [args|e0]; simpl;
      [|eexists _, _; split; [reflexivity|]; simpl;
        split; [reflexivity|]; split; [discriminate | reflexivity]].
    destruct tab; simpl.
    + run_post r Hr. destruct r as [response|e]; simpl.
      * destruct (get_field response "result") as [data|e]; simpl;
          eexists _, _; (split; [reflexivity|]); simpl;
          (split; [reflexivity|]); split; try discriminate; reflexivity.
      * eexists _, _. split; [reflexivity|]. simpl.
        split; [reflexivity|]. split; [discriminate | reflexivity].
    + destruct (decide _) as [Hw|Hw]; simpl.
      { eexists _, _. split; [reflexivity|]. simpl.
        split; [reflexivity|]. split; [discriminate | reflexivity]. }
      run_post r Hr. destruct r as [response|e]; simpl.
      * destruct (get_field response "tx_hash") as [tx_hash|e]; simpl.
        -- rewrite Hdep. simpl. eexists _, _. split; [reflexivity|]. simpl.
           split; [reflexivity|]. split; [reflexivity|].
           intros [H|H]; discriminate H.
        -- eexists _, _. split; [reflexivity|]. simpl.
           split; [reflexivity|]. split; [discriminate | reflexivity].
      * eexists _, _. split; [reflexivity|]. simpl.
        split; [reflexivity|]. split; [discriminate | reflexivity].
  - intros w2 w3 i t out Ht Hcb Hfire.
    unfold DeploymentDetail.fire in Hfire. rewrite Ht in Hfire.
    destruct (N.leb_spec (due t) (clock w2)) as [Hdue|Hdue]; [|discriminate].
    split; [assumption|]. rewrite Hcb in Hfire. simpl in Hfire.
    match type of Hfire with Some (DeploymentDetail.loadHistory ?n ?id ?w0) = _ =>
      destruct (loadHistory_run n id w0) as (w' & Hrun & Hsent & Htimers & Hok & Herr)
    end.
    rewrite Hrun in Hfire. injection Hfire as <- <-.
    split; [reflexivity|]. split; [exact Htimers|]. split; [exact Hsent|].
    split.
    + intros h Hh. apply Hok. unfold api.deployments.getHistory in *.
      now rewrite <- (proj1 (fetchJson_run net _ w2 _)).
    + intros e He. apply (Herr e). unfold api.deployments.getHistory in *.
      now rewrite <- (proj1 (fetchJson_run net _ w2 _)).
Qed.

Lemma write_success_schedules_refresh_witness :
  timers
    (snd (FunctionForm.handleSubmit DeploymentDetail.form_mount
            (fun req =>
               match Request.method req with
               | POST =>
                   {| outcome :=
                        Responded
                          (Response.mk true 200 (Ok "")
                             (Ok (JObj [(units "tx_hash", JText "0xfeed");
                                        (units "history_id", JNum "12")])));
                      latency := 40 |}
               | GET =>
                   {| outcome :=
                        Responded
                          (Response.mk true 200 (Ok "")
                             (Ok (JArr [JObj [(units "id", JNum "12")]])));
                      latency := 15 |}
               end)
            (DeploymentDetail.form_props
               (Deployment.mk 7 "Token" "mainnet" "0xabc" 1)
               (FunctionInfo.mk "mint" "mint(uint256)"
                  [ParamInfo.mk "amount" "uint256" None] [] "nonpayable")
               [] DeploymentDetail.write)
            (mkWorld 100 [] []
               (DeploymentDetail.mkState
                  (Some (Deployment.mk 7 "Token" "mainnet" "0xabc" 1)) (JArr [])
                  false None DeploymentDetail.write
                  (FunctionForm.mkState {["amount" := "5"]} "alice" "" false true
                     None)))))
  = [{| due := 2140; callback := LoadHistoryTask 7 |}]
  /\ exists (out : exn unit) (w3 : World DeploymentDetail.State),
       DeploymentDetail.fire
         (fun req =>
            match Request.method req with
            | POST =>
                {| outcome :=
                     Responded
                       (Response.mk true 200 (Ok "")
                          (Ok (JObj [(units "tx_hash", JText "0xfeed");
                                     (units "history_id", JNum "12")])));
                   latency := 40 |}
            | GET =>
                {| outcome :=
                     Responded
                       (Response.mk true 200 (Ok "")
                          (Ok (JArr [JObj [(units "id", JNum "12")]])));
                   latency := 15 |}
            end)
         0
         (mkWorld 2140 [{| due := 2140; callback := LoadHistoryTask 7 |}] []
            (DeploymentDetail.mkState
               (Some (Deployment.mk 7 "Token" "mainnet" "0xabc" 1)) (JArr [])
               false None DeploymentDetail.write
               (FunctionForm.mkState {["amount" := "5"]} "alice" "" false false
                  None)))
       = Some (out, w3)
       /\ out = Ok tt
       /\ timers w3 = []
       /\ sent w3 = [Request.mk "/api/deployments/7/history" GET None]
       /\ DeploymentDetail.history (ui w3) = JArr [JObj [(units "id", JNum "12")]].
Proof.
  pose proof (write_success_schedules_refresh
                (fun req =>
                   match Request.method req with
                   | POST =>
                       {| outcome :=
                            Responded
                              (Response.mk true 200 (Ok "")
                                 (Ok (JObj [(units "tx_hash", JText "0xfeed");
                                            (units "history_id", JNum "12")])));
                          latency := 40 |}
                   | GET =>
                       {| outcome :=
                            Responded
                              (Response.mk true 200 (Ok "")
                                 (Ok (JArr [JObj [(units "id", JNum "12")]])));
                          latency := 15 |}
                   end)
                (Deployment.mk 7 "Token" "mainnet" "0xabc" 1)
                (FunctionInfo.mk "mint" "mint(uint256)"
                   [ParamInfo.mk "amount" "uint256" None] [] "nonpayable")
                [] DeploymentDetail.write
                (mkWorld 100 [] []
                   (DeploymentDetail.mkState
                      (Some (Deployment.mk 7 "Token" "mainnet" "0xabc" 1))
                      (JArr []) false None DeploymentDetail.write
                      (FunctionForm.mkState {["amount" := "5"]} "alice" ""
                         false true None)))
                eq_refl)
    as [(w' & r & Hrun & Hres & Hwrite & _) Hfire].
  split.
  - rewrite Hrun. simpl. rewrite Hwrite.
    + apply (f_equal snd) in Hrun. simpl in Hrun. subst w'. reflexivity.
    + reflexivity.
    + apply (f_equal snd) in Hrun. simpl in Hrun. subst w'.
      injection Hres as <-. reflexivity.
  - eexists _, _. split; [vm_compute; reflexivity|].
    match goal with |- ?o = _ /\ timers ?w3 = _ /\ _ =>
      destruct (Hfire
                  (mkWorld 2140 [{| due := 2140; callback := LoadHistoryTask 7 |}] []
                     (DeploymentDetail.mkState
                        (Some (Deployment.mk 7 "Token" "mainnet" "0xabc" 1))
                        (JArr []) false None DeploymentDetail.write
                        (FunctionForm.mkState {["amount" := "5"]} "alice" ""
                           false false None)))
                  w3 0%nat {| due := 2140; callback := LoadHistoryTask 7 |} o
                  eq_refl eq_refl)
        as (_ & Hout & Htimers & Hsent & Hok & _)
    end.
    + vm_compute. reflexivity.
    + split; [exact Hout|]. split; [exact Htimers|]. split; [exact Hsent|].
      apply Hok. reflexivity.
Defined.

(** * Further properties *)

(** ** components/param-input.tsx *)



(** X2: the element shown for a parameter and the way its text is
    marshalled go together: a switch always marshals to a boolean; the text
    of an array box, and of a tuple box on a tag other than [bool], goes
    through [JSON.parse] with the raw text as fallback; the text of a
    plain input or of the [bytes] area is passed on unchanged, provided
    the parameter has no [components] field and is not tagged [tuple]. *)
Theorem widget_matches_marshalling (input : ParamInfo.t) (rawValue : string) :
  rawValue <> "" ->
  (ParamInput.render input = ParamInput.BoolInput ->
   exists b, FunctionForm.coerce input rawValue = Ok (JBool b))
  /\ (forall p, ParamInput.render input = ParamInput.ArrayInput p ->
                FunctionForm.coerce input rawValue = parse_or_raw rawValue)
  /\ (forall p, ParamInput.render input = ParamInput.TupleInput p ->
                ParamInfo.param_type input <> "bool" ->
                FunctionForm.coerce input rawValue = parse_or_raw rawValue)
  /\ (forall p, ParamInput.render input = ParamInput.BytesArea p
                \/ (exists t, ParamInput.render input = ParamInput.TextInput t p) ->
                ParamInfo.components input = None ->
                ParamInfo.param_type input <> "tuple" ->
                FunctionForm.coerce input rawValue = Ok (JText rawValue)).
Proof.
  intros Hne. unfold ParamInput.render, FunctionForm.coerce, FunctionForm.arrayOrTuple.
  simpl. rewrite (bool_decide_eq_false_2 (rawValue = "")) by assumption.
  destruct (ParamInfo.components input) as [[|c cs]|] eqn:Hc;
    destruct (Str.endsWith (ParamInfo.param_type input) "[]") eqn:Harr;
    destruct (decide (ParamInfo.param_type input = "bool")) as [Hb|Hb];
    destruct (decide (ParamInfo.param_type input = "bytes")) as [Hy|Hy];
    try (rewrite Hb in Harr; discriminate Harr);
    (split; [intros H; try discriminate H; eauto|]);
    (split; [intros p H; try discriminate H; rewrite ?orb_true_r; reflexivity|]);
    (split; [intros p H Hnb; try discriminate H; try contradiction;
             rewrite ?orb_true_r; reflexivity|]);
    intros p [H|[t H]] Hnone Htuple; try discriminate H; try discriminate Hnone;
    rewrite bool_decide_eq_false_2 by assumption; reflexivity.
Qed.

Lemma widget_matches_marshalling_witness :
  FunctionForm.coerce (ParamInfo.mk "ids" "uint256[]" None) "[1]" = parse_or_raw "[1]"
  /\ FunctionForm.coerce (ParamInfo.mk "to" "address" None) "0xabc"
     = Ok (JText "0xabc").
Proof.
  split.
  - apply (proj1 (proj2 (widget_matches_marshalling
                            (ParamInfo.mk "ids" "uint256[]" None) "[1]"
                            ltac:(discriminate)))
             (ParamInput.array_placeholder (ParamInfo.mk "ids" "uint256[]" None))).
    reflexivity.
  - apply (proj2 (proj2 (proj2 (widget_matches_marshalling
                                   (ParamInfo.mk "to" "address" None) "0xabc"
                                   ltac:(discriminate))))
             "0x...").
    + right. exists "text". reflexivity.
    + reflexivity.
    + simpl. discriminate.
Defined.



(** [substring] read on the list of code units. *)
Lemma chars_substring (n m : nat) (s : string) :
  Str.chars (String.substring n m s) = take m (drop n (Str.chars s)).
Proof.
  revert n m. induction s as [|c s IH]; intros [|n] [|m]; simpl;
    try reflexivity.
  - f_equal. apply (IH 0%nat m).
  - apply (IH n 0%nat).
  - apply (IH n (S m)).
Qed.

Lemma chars_app (s1 s2 : string) :
  Str.chars (s1 +:+ s2) = (Str.chars s1 ++ Str.chars s2)%list.
Proof. induction s1 as [|c s1 IH]; simpl; [reflexivity | now rewrite IH]. Qed.

Lemma chars_inj (s1 s2 : string) : Str.chars s1 = Str.chars s2 -> s1 = s2.
Proof. intros H. now rewrite <- (text_chars s1), <- (text_chars s2), H. Qed.

(** X4: for a tag that ends in [[]], the base type that [ArrayInput]
    computes is the tag with its first [[]] taken out: the tag is
    [before ++ [] ++ after] with no [[]] starting inside [before], and the
    base type is [before ++ after], two code units shorter. *)
Theorem ArrayInput_baseType (param : ParamInfo.t) :
  Str.endsWith (ParamInfo.param_type param) "[]" = true ->
  exists before after : string,
    ParamInfo.param_type param = before +:+ "[]" +:+ after
    /\ ParamInput.baseType param = before +:+ after
    /\ (forall p : nat,
          (p < String.length before)%nat ->
          String.substring p 2 (ParamInfo.param_type param) <> "[]")
    /\ (String.length (ParamInput.baseType param) + 2
        = String.length (ParamInfo.param_type param))%nat.
Proof.
  set (tag := ParamInfo.param_type param). intros Hends.
  unfold Str.endsWith in Hends. apply andb_true_iff in Hends as [_ Hsub].
  apply String.eqb_eq in Hsub. change (String.length "[]") with 2%nat in Hsub.
  unfold ParamInput.baseType, StrExt.replace. fold tag.
  destruct (String.index 0 "[]" tag) as [m|] eqn:Hidx.
  2:{ exfalso. apply (index_correct3 0 (String.length tag - 2) "[]" tag Hidx);
        [discriminate | lia | exact Hsub]. }
  pose proof (index_correct1 _ _ _ _ Hidx) as Hat.
  pose proof (index_correct2 _ _ _ _ Hidx) as Hfirst.
  change (String.length "[]") with 2%nat in *.
  assert (Hl : take 2 (drop m (Str.chars tag)) = Str.chars "[]").
  { rewrite <- chars_substring. now rewrite Hat. }
  assert (Hlen : (m + 2 <= String.length tag)%nat).
  { apply (f_equal length) in Hl. rewrite length_take, length_drop, length_chars in Hl.
    change (length (Str.chars "[]")) with 2%nat in Hl. lia. }
  assert (Hbefore : String.length (String.substring 0 m tag) = m).
  { rewrite <- length_chars, chars_substring, length_take, length_drop, length_chars.
    lia. }
  exists (String.substring 0 m tag),
         (String.substring (m + 2) (String.length tag - (m + 2)) tag).
  split; [|split; [|split]].
  - apply chars_inj. rewrite !chars_app, !chars_substring, <- Hl. simpl.
    rewrite (take_ge (drop (m + 2) _)) by (rewrite length_drop, length_chars; lia).
    rewrite <- (take_drop m (Str.chars tag)) at 1. f_equal.
    rewrite <- (take_drop 2 (drop m (Str.chars tag))) at 1. f_equal.
    rewrite drop_drop. reflexivity.
  - reflexivity.
  - intros p Hp. rewrite Hbefore in Hp. apply Hfirst; lia.
  - rewrite !length_append, Hbefore. simpl.
    rewrite <- length_chars, chars_substring, length_take, length_drop, length_chars.
    lia.
Qed.

Lemma ArrayInput_baseType_witness :
  exists before after : string,
    "uint256[2][]" = before +:+ "[]" +:+ after
    /\ ParamInput.baseType (ParamInfo.mk "m" "uint256[2][]" None) = before +:+ after
    /\ (forall p : nat,
          (p < String.length before)%nat ->
          String.substring p 2 "uint256[2][]" <> "[]")
    /\ (String.length (ParamInput.baseType (ParamInfo.mk "m" "uint256[2][]" None)) + 2
        = String.length "uint256[2][]")%nat.
Proof.
  apply (ArrayInput_baseType (ParamInfo.mk "m" "uint256[2][]" None)). reflexivity.
Defined.

Example ArrayInput_samples :
  map (fun tag => ParamInput.render (ParamInfo.mk "x" tag None))
      ["uint256[]"; "uint256[][]"; "address[3][]"; "bool"; "bytes"; "bytes32";
       "tuple"]
  = [ParamInput.ArrayInput "[0, ...]"; ParamInput.ArrayInput "[0, ...]";
     ParamInput.ArrayInput "[value, ...]"; ParamInput.BoolInput;
     ParamInput.BytesArea "0x..."; ParamInput.TextInput "text" "0x...";
     ParamInput.TextInput "text" "value"]
  /\ ParamInput.render
       (ParamInfo.mk "p" "tuple"
          (Some [ParamInfo.mk "to" "address" None;
                 ParamInfo.mk "amount" "uint256" None]))
     = ParamInput.TupleInput
         ("{ " +:+ q "to" +:+ ": 0x..., " +:+ q "amount" +:+ ": 0 }").
Proof. split; vm_compute; reflexivity. Qed.

(** ** components/function-form.tsx: the form around [handleSubmit] *)

(** X5: after [handleParamChange name v], every input called [name] is
    shown with [v] and marshals as the coercion of [v]; inputs with other
    names are shown and marshalled as before, and the wallet, the value
    and the last result stay as they were. *)
Theorem handleParamChange_round_trip (st : FunctionForm.State)
  (name v : string) (input : ParamInfo.t) :
  (ParamInfo.name input = name ->
   FunctionFormView.shownValue (FunctionForm.handleParamChange name v st) input = v
   /\ FunctionForm.parseParam
        (FunctionForm.params (FunctionForm.handleParamChange name v st)) input
      = FunctionForm.coerce input v)
  /\ (ParamInfo.name input <> name ->
      FunctionFormView.shownValue (FunctionForm.handleParamChange name v st) input
      = FunctionFormView.shownValue st input
      /\ FunctionForm.parseParam
           (FunctionForm.params (FunctionForm.handleParamChange name v st)) input
         = FunctionForm.parseParam (FunctionForm.params st) input)
  /\ FunctionForm.selectedWallet (FunctionForm.handleParamChange name v st)
     = FunctionForm.selectedWallet st
  /\ FunctionForm.value (FunctionForm.handleParamChange name v st)
     = FunctionForm.value st
  /\ FunctionForm.result (FunctionForm.handleParamChange name v st)
     = FunctionForm.result st.
Proof.
  unfold FunctionFormView.shownValue, FunctionForm.parseParam,
    FunctionForm.handleParamChange, get_or_empty. simpl.
  split; [|split; [|repeat split]].
  - intros <-. now rewrite lookup_insert_eq.
  - intros Hne. rewrite lookup_insert_ne by congruence. now split.
Qed.

Lemma handleParamChange_round_trip_witness :
  FunctionFormView.shownValue
    (FunctionForm.handleParamChange "amount" "7"
       (FunctionForm.mkState {["amount" := "5"; "to" := "0xabc"]} "" "" false true None))
    (ParamInfo.mk "amount" "uint256" None) = "7"
  /\ FunctionForm.parseParam
       (FunctionForm.params
          (FunctionForm.handleParamChange "amount" "7"
             (FunctionForm.mkState {["amount" := "5"; "to" := "0xabc"]} "" "" false
                true None)))
       (ParamInfo.mk "to" "address" None)
     = FunctionForm.parseParam {["amount" := "5"; "to" := "0xabc"]}
         (ParamInfo.mk "to" "address" None).
Proof.
  split.
  - apply (proj1 (handleParamChange_round_trip
                    (FunctionForm.mkState {["amount" := "5"; "to" := "0xabc"]} "" ""
                       false true None)
                    "amount" "7" (ParamInfo.mk "amount" "uint256" None))).
    reflexivity.
  - apply (proj1 (proj2 (handleParamChange_round_trip
                    (FunctionForm.mkState {["amount" := "5"; "to" := "0xabc"]} "" ""
                       false true None)
                    "amount" "7" (ParamInfo.mk "to" "address" None)))
             ltac:(simpl; discriminate)).
Defined.

(** X6: on the deployment page, a submission made while the submit
    button is enabled sends exactly one request, a POST that carries the
    marshalled arguments, when the marshalling of the inputs returns: for
    a write it is a send request that names a wallet, for a read a call
    request; when the marshalling throws, no request is sent.  A write
    with no wallet selected always finds the button disabled. *)
Theorem enabled_submit_sends_once (net : Request.t -> reply)
  (d : Deployment.t) (func : FunctionInfo.t) (wallets : list Wallet.t)
  (tab : DeploymentDetail.InteractTab) (w : World DeploymentDetail.State) :
  (FunctionFormView.submitDisabled
     (DeploymentDetail.form_props d func wallets tab)
     (DeploymentDetail.form (ui w)) = false ->
   (forall args,
       FunctionForm.parseParams func
         (FunctionForm.params (DeploymentDetail.form (ui w))) = Ok args ->
       exists req : Request.t,
         sent (snd (FunctionForm.handleSubmit DeploymentDetail.form_mount net
                      (DeploymentDetail.form_props d func wallets tab) w))
         = (sent w ++ [req])%list
         /\ Request.method req = POST
         /\ (tab = DeploymentDetail.write ->
             exists r, Request.body req = Some (SendBody r)
                       /\ SendRequest.wallet_name r <> ""
                       /\ SendRequest.params r = args)
         /\ (tab = DeploymentDetail.read ->
             exists r, Request.body req = Some (CallBody r)
                       /\ CallRequest.params r = args))
   /\ (forall e,
         FunctionForm.parseParams func
           (FunctionForm.params (DeploymentDetail.form (ui w))) = Throw e ->
         sent (snd (FunctionForm.handleSubmit DeploymentDetail.form_mount net
                      (DeploymentDetail.form_props d func wallets tab) w))
         = sent w))
  /\ (tab = DeploymentDetail.write ->
      FunctionForm.selectedWallet (DeploymentDetail.form (ui w)) = "" ->
      FunctionFormView.submitDisabled
        (DeploymentDetail.form_props d func wallets tab)
        (DeploymentDetail.form (ui w)) = true).
Proof.
  split.
  - intros Hen. unfold FunctionFormView.submitDisabled in Hen.
    apply orb_false_iff in Hen as [_ Hen]. split.
    + intros args Hargs.
      unfold FunctionForm.handleSubmit, api.deployments.send, api.deployments.call,
        DeploymentDetail.form_props, DeploymentDetail.handleTxSent in *.
      unfold_eff. simpl in *. rewrite Hargs.
      destruct tab; simpl in *.
      * run_post r Hr. eexists. split.
        -- destruct r as [response|e]; simpl; [|reflexivity].
           destruct (get_field response "result"); reflexivity.
        -- split; [reflexivity|]. split; [discriminate|]. intros _. eauto.
      * apply bool_decide_eq_false in Hen. rewrite decide_False by assumption.
        simpl. run_post r Hr. eexists. split.
        -- destruct r as [response|e]; simpl; [|reflexivity].
           destruct (get_field response "tx_hash"); simpl; [|reflexivity].
           destruct (DeploymentDetail.deployment (ui w)); reflexivity.
        -- split; [reflexivity|]. split; [|discriminate]. intros _.
           eexists. split; [reflexivity|]. simpl. now split.
    + intros e He.
      destruct (submit_throw_sends_nothing DeploymentDetail.form_mount net
                  (DeploymentDetail.form_props d func wallets tab) w e He)
        as (w' & Hrun & Hsent & _).
      now rewrite Hrun.
  - intros -> Hwallet. unfold FunctionFormView.submitDisabled. simpl.
    rewrite Hwallet. simpl. apply orb_true_r.
Qed.

Lemma enabled_submit_sends_once_witness :
  exists req : Request.t,
    sent (snd (FunctionForm.handleSubmit DeploymentDetail.form_mount
                 (fun _ => {| outcome := Rejected (ErrorObject "offline");
                              latency := 5 |})
                 (DeploymentDetail.form_props
                    (Deployment.mk 7 "Token" "mainnet" "0xabc" 1)
                    (FunctionInfo.mk "deposit" "deposit()" [] [] "payable")
                    [] DeploymentDetail.write)
                 (mkWorld 100 [] []
                    (DeploymentDetail.mkState
                       (Some (Deployment.mk 7 "Token" "mainnet" "0xabc" 1))
                       (JArr []) false None DeploymentDetail.write
                       (FunctionForm.mkState ∅ "alice" "" false true None)))))
    = ([] ++ [req])%list
    /\ Request.method req = POST.
Proof.
  destruct (proj1 (proj1 (enabled_submit_sends_once
                     (fun _ => {| outcome := Rejected (ErrorObject "offline");
                                  latency := 5 |})
                     (Deployment.mk 7 "Token" "mainnet" "0xabc" 1)
                     (FunctionInfo.mk "deposit" "deposit()" [] [] "payable")
                     [] DeploymentDetail.write
                     (mkWorld 100 [] []
                        (DeploymentDetail.mkState
                           (Some (Deployment.mk 7 "Token" "mainnet" "0xabc" 1))
                           (JArr []) false None DeploymentDetail.write
                           (FunctionForm.mkState ∅ "alice" "" false true None))))
              eq_refl) [] eq_refl) as (req & Hsent & Hpost & _).
  exists req. split; [exact Hsent | exact Hpost].
Defined.


(** X8: a read does not look at the wallet or at the value: with any
    other wallet and value in the form, the same request goes out, the
    same result is recorded and the same time passes; and a read adds
    no timer: the timers after it are those before it. *)
Theorem read_ignores_wallet_and_value (net : Request.t -> reply)
  (d : Deployment.t) (func : FunctionInfo.t) (wallets : list Wallet.t)
  (w : World DeploymentDetail.State) (wallet value : string) :
  let w2 :=
    mkWorld (clock w) (timers w) (sent w)
      (DeploymentDetail.mkState
         (DeploymentDetail.deployment (ui w)) (DeploymentDetail.history (ui w))
         (DeploymentDetail.loading (ui w)) (DeploymentDetail.error (ui w))
         (DeploymentDetail.interactTab (ui w))
         (FunctionForm.mkState
            (FunctionForm.params (DeploymentDetail.form (ui w))) wallet value
            (FunctionForm.loading (DeploymentDetail.form (ui w)))
            (FunctionForm.expanded (DeploymentDetail.form (ui w)))
            (FunctionForm.result (DeploymentDetail.form (ui w))))) in
  let run := fun w0 =>
    snd (FunctionForm.handleSubmit DeploymentDetail.form_mount net
           (DeploymentDetail.form_props d func wallets DeploymentDetail.read) w0) in
  sent (run w2) = sent (run w)
  /\ FunctionForm.result (DeploymentDetail.form (ui (run w2)))
     = FunctionForm.result (DeploymentDetail.form (ui (run w)))
  /\ clock (run w2) = clock (run w)
  /\ timers (run w2) = timers w
  /\ timers (run w) = timers w.
Proof.
  cbv zeta.
  unfold FunctionForm.handleSubmit, api.deployments.call, DeploymentDetail.form_props.
  unfold_eff. simpl.
  destruct (FunctionForm.parseParams func
              (FunctionForm.params (DeploymentDetail.form (ui w))))
    as [args|e0]; simpl; [|repeat split].
  match goal with |- context [postJson ?n ?u ?b ?wa] =>
    match goal with |- context [postJson n u b ?wb] =>
      lazymatch wa with wb => fail | _ =>
        pose proof (postJson_run n u b wa wb) as [Hfst Hsnd];
        pose proof (proj2 (postJson_run n u b wb wb)) as Hsnd';
        destruct (postJson n u b wa) as [ra wa'];
        destruct (postJson n u b wb) as [rb wb']
      end
    end
  end.
  simpl in *. subst ra wa' wb'.
  destruct rb as [response|e]; simpl;
    [destruct (get_field response "result"); simpl|]; repeat split.
Qed.

Lemma error_text_is_shown (body : string) (status : N) :
  FunctionFormView.resultPanel
    (FunctionForm.mkResult false None None
       (Some (if decide (body = "") then "API error: " +:+ Str.show status
              else body)))
  = FunctionFormView.ErrorPanel
      (if decide (body = "") then "API error: " +:+ Str.show status else body)
  /\ (if decide (body = "") then "API error: " +:+ Str.show status else body) <> ""
  /\ (body <> "" ->
      (if decide (body = "") then "API error: " +:+ Str.show status else body)
      = body)
  /\ (body = "" ->
      (if decide (body = "") then "API error: " +:+ Str.show status else body)
      = "API error: " +:+ Str.show status).
Proof.
  unfold FunctionFormView.resultPanel. simpl.
  destruct (decide (body = "")) as [->|Hb]; simpl.
  - split; [reflexivity|]. split; [discriminate|]. split; [congruence | reflexivity].
  - rewrite decide_False by assumption.
    split; [reflexivity|]. split; [assumption|]. split; [reflexivity | congruence].
Qed.

(** X9: when the marshalling of the inputs returns and the backend
    answers with a response that is not ok and a readable body, the form
    shows the red error box with a text that is never empty: the body,
    or [API error: ] and the status for an empty body. *)
Theorem http_error_is_shown (net : Request.t -> reply)
  (d : Deployment.t) (func : FunctionInfo.t) (wallets : list Wallet.t)
  (tab : DeploymentDetail.InteractTab) (w : World DeploymentDetail.State)
  (r : Response.t) (body : string) (args : list jsval) :
  FunctionForm.parseParams func
    (FunctionForm.params (DeploymentDetail.form (ui w))) = Ok args ->
  (forall req, outcome (net req) = Responded r) ->
  Response.ok r = false ->
  Response.text r = Ok body ->
  (tab = DeploymentDetail.write ->
   FunctionForm.selectedWallet (DeploymentDetail.form (ui w)) <> "") ->
  exists (res : FunctionForm.CallResult) (message : string),
    FunctionForm.result
      (DeploymentDetail.form
         (ui (snd (FunctionForm.handleSubmit DeploymentDetail.form_mount net
                     (DeploymentDetail.form_props d func wallets tab) w))))
    = Some res
    /\ FunctionFormView.resultPanel res = FunctionFormView.ErrorPanel message
    /\ message <> ""
    /\ (body <> "" -> message = body)
    /\ (body = "" -> message = "API error: " +:+ Str.show (Response.status r)).
Proof.
  intros Hargs Hnet Hok Hbody Hwallet.
  unfold FunctionForm.handleSubmit, api.deployments.send, api.deployments.call,
    DeploymentDetail.form_props, postJson, read_json, Eff.fetch.
  unfold_eff. simpl. rewrite Hargs.
  destruct tab; simpl.
  - rewrite Hnet, Hok. simpl. rewrite Hbody. simpl.
    eexists _, _. split; [reflexivity|]. apply error_text_is_shown.
  - rewrite decide_False by (now apply Hwallet). simpl.
    rewrite Hnet, Hok. simpl. rewrite Hbody. simpl.
    eexists _, _. split; [reflexivity|]. apply error_text_is_shown.
Qed.

Lemma http_error_is_shown_witness :
  exists (res : FunctionForm.CallResult) (message : string),
    FunctionForm.result
      (DeploymentDetail.form
         (ui (snd (FunctionForm.handleSubmit DeploymentDetail.form_mount
                     (fun _ => {| outcome :=
                                    Responded
                                      (Response.mk false 502 (Ok "")
                                         (Throw (ErrorObject "not json")));
                                  latency := 40 |})
                     (DeploymentDetail.form_props
                        (Deployment.mk 7 "Token" "mainnet" "0xabc" 1)
                        (FunctionInfo.mk "totalSupply" "totalSupply()" [] [] "view")
                        [] DeploymentDetail.read)
                     (mkWorld 100 [] []
                        (DeploymentDetail.mkState
                           (Some (Deployment.mk 7 "Token" "mainnet" "0xabc" 1))
                           (JArr []) false None DeploymentDetail.read
                           (FunctionForm.mkState ∅ "" "" false true None)))))))
    = Some res
    /\ FunctionFormView.resultPanel res = FunctionFormView.ErrorPanel message
    /\ message = "API error: 502".
Proof.
  destruct (http_error_is_shown
              (fun _ => {| outcome :=
                             Responded
                               (Response.mk false 502 (Ok "")
                                  (Throw (ErrorObject "not json")));
                           latency := 40 |})
              (Deployment.mk 7 "Token" "mainnet" "0xabc" 1)
              (FunctionInfo.mk "totalSupply" "totalSupply()" [] [] "view")
              [] DeploymentDetail.read
              (mkWorld 100 [] []
                 (DeploymentDetail.mkState
                    (Some (Deployment.mk 7 "Token" "mainnet" "0xabc" 1))
                    (JArr []) false None DeploymentDetail.read
                    (FunctionForm.mkState ∅ "" "" false true None)))
              (Response.mk false 502 (Ok "") (Throw (ErrorObject "not json"))) "" [])
    as (res & message & Hres & Hpanel & _ & _ & Hempty).
  - reflexivity.
  - intros req. reflexivity.
  - reflexivity.
  - reflexivity.
  - discriminate.
  - exists res, message. split; [exact Hres|]. split; [exact Hpanel|].
    apply Hempty. reflexivity.
Defined.

(** ** components/deploy-modal.tsx and pages/deploy.tsx *)

(** X10: the modal and the page marshal the constructor arguments in
    the same way, which for an artifact with a constructor is exactly the
    way [parseParams] marshals the parameters of a function with the
    constructor's inputs: when every input is read as a string, the
    arguments come one per input.  Without artifact details, or with a
    constructor that is [null], the argument list is empty; details that
    lack the [constructor] key make the marshalling throw. *)
Theorem parseConstructorArgs_as_parseParams
  (details : option ArtifactDetails.t) (args : gmap string string)
  (network wallet value artifact : string) (deploying : bool)
  (err : option string) (res : option Deploy.DeployResult) :
  let modal :=
    DeployModal.mkState details network wallet args value deploying err in
  let page :=
    Deploy.mkState artifact details network wallet args value deploying res in
  Deploy.parseConstructorArgs page = DeployModal.parseConstructorArgs modal
  /\ (forall dt ctor,
        details = Some dt ->
        ArtifactDetails.constructor dt = ArtifactDetails.ctor_info ctor ->
        DeployModal.parseConstructorArgs modal
        = FunctionForm.parseParams
            (FunctionInfo.mk "constructor" "" (ConstructorInfo.inputs ctor) []
               (ConstructorInfo.state_mutability ctor)) args
        /\ ((forall input, In input (ConstructorInfo.inputs ctor) ->
                           reads_text args (ParamInfo.name input)) ->
            exists out,
              DeployModal.parseConstructorArgs modal = Ok out
              /\ length out = length (ConstructorInfo.inputs ctor)))
  /\ (details = None
      \/ (exists dt, details = Some dt
                     /\ ArtifactDetails.constructor dt = ArtifactDetails.ctor_null) ->
      DeployModal.parseConstructorArgs modal = Ok [])
  /\ (forall dt,
        details = Some dt ->
        ArtifactDetails.constructor dt = ArtifactDetails.ctor_absent ->
        exists e, DeployModal.parseConstructorArgs modal = Throw e).
Proof.
  cbv zeta. unfold DeployModal.parseConstructorArgs, Deploy.parseConstructorArgs.
  simpl. split; [reflexivity|]. split; [|split].
  - intros dt ctor -> Hctor. rewrite Hctor. split; [reflexivity|].
    intros Htext.
    destruct (map_exn_pointwise (FunctionForm.parseParam args)
                (ConstructorInfo.inputs ctor)) as (out & Hout & Hlen & _).
    + intros x Hx. apply parseParam_returns. auto.
    + exists out. split; [exact Hout | exact Hlen].
  - intros [->|(dt & -> & Hctor)]; [reflexivity|]. now rewrite Hctor.
  - intros dt -> Hctor. rewrite Hctor. eauto.
Qed.

Lemma parseConstructorArgs_as_parseParams_witness :
  DeployModal.parseConstructorArgs
    (DeployModal.mkState
       (Some (ArtifactDetails.mk "Token" "src/Token.sol" JNull
                (ArtifactDetails.ctor_info
                   (ConstructorInfo.mk
                      [ParamInfo.mk "supply" "uint256" None;
                       ParamInfo.mk "owners" "address[]" None] "payable"))
                true false))
       "mainnet" "alice" {["supply" := "1000"]} "" false None)
  = FunctionForm.parseParams
      (FunctionInfo.mk "constructor" ""
         [ParamInfo.mk "supply" "uint256" None;
          ParamInfo.mk "owners" "address[]" None] [] "payable")
      {["supply" := "1000"]}
  /\ DeployModal.parseConstructorArgs
       (DeployModal.mkState None "mainnet" "alice" {["supply" := "1000"]} "" false
          None)
     = Ok [].
Proof.
  split.
  - apply (proj1 (proj1 (proj2 (parseConstructorArgs_as_parseParams
                    (Some (ArtifactDetails.mk "Token" "src/Token.sol" JNull
                             (ArtifactDetails.ctor_info
                                (ConstructorInfo.mk
                                   [ParamInfo.mk "supply" "uint256" None;
                                    ParamInfo.mk "owners" "address[]" None]
                                   "payable"))
                             true false))
                    {["supply" := "1000"]} "mainnet" "alice" "" "Token" false None
                    None))
             (ArtifactDetails.mk "Token" "src/Token.sol" JNull
                (ArtifactDetails.ctor_info
                   (ConstructorInfo.mk
                      [ParamInfo.mk "supply" "uint256" None;
                       ParamInfo.mk "owners" "address[]" None]
                      "payable"))
                true false)
             (ConstructorInfo.mk
                [ParamInfo.mk "supply" "uint256" None;
                 ParamInfo.mk "owners" "address[]" None] "payable")
             eq_refl eq_refl)).
  - apply (proj1 (proj2 (proj2 (parseConstructorArgs_as_parseParams
                    None {["supply" := "1000"]} "mainnet" "alice" "" "Token" false
                    None None)))).
    left. reflexivity.
Defined.

Example parseConstructorArgs_samples :
  (* an untouched bool argument named like a built-in method *)
  Deploy.parseConstructorArgs
    (Deploy.mkState "Token"
       (Some (ArtifactDetails.mk "Token" "src/Token.sol" JNull
                (ArtifactDetails.ctor_info
                   (ConstructorInfo.mk [ParamInfo.mk "valueOf" "bool" None]
                      "nonpayable"))
                true false))
       "mainnet" "alice" ∅ "" false None)
  = Throw (ErrorObject "rawValue.toLowerCase is not a function")
  (* the same argument once the switch was clicked *)
  /\ Deploy.parseConstructorArgs
       (Deploy.mkState "Token"
          (Some (ArtifactDetails.mk "Token" "src/Token.sol" JNull
                   (ArtifactDetails.ctor_info
                      (ConstructorInfo.mk [ParamInfo.mk "valueOf" "bool" None]
                         "nonpayable"))
                   true false))
          "mainnet" "alice" {["valueOf" := "true"]} "" false None)
     = Ok [JBool true]
  (* details that came without the constructor key *)
  /\ Deploy.parseConstructorArgs
       (Deploy.mkState "Token"
          (Some (ArtifactDetails.mk "Token" "src/Token.sol" JNull
                   ArtifactDetails.ctor_absent true false))
          "mainnet" "alice" ∅ "" false None)
     = Throw (ErrorObject "Cannot read properties of undefined (reading 'map')").
Proof. repeat split. Qed.


(** X12: when the constructor arguments have been marshalled and the
    backend accepts the deployment but its answer carries no contract
    address (the field is absent, [null] or empty), the modal neither
    calls [onSuccess] nor shows an error: it is left as it was, with
    [deploying] off and the error cleared, whatever [onSuccess] is, and
    the one request it sent carries the marshalled arguments. *)
Theorem modal_without_address_is_silent (net : Request.t -> reply)
  (props : DeployModal.Props DeployModal.State) (w : World DeployModal.State)
  (r : Response.t) (answer : jsval) (contract_address : option jsval)
  (args : list jsval) :
  DeployModal.parseConstructorArgs (ui w) = Ok args ->
  (forall req, outcome (net req) = Responded r) ->
  Response.ok r = true ->
  Response.json r = Ok answer ->
  get_field answer "contract_address" = Ok contract_address ->
  Truthy.truthy contract_address = false ->
  exists w',
    DeployModal.handleDeploy mounted_alone net props w = (Ok tt, w')
    /\ ui w' = DeployModal.setDeploying false (DeployModal.setDeployError None (ui w))
    /\ timers w' = timers w
    /\ sent w'
       = (sent w
          ++ [Request.mk (API_BASE +:+ "/deploy") POST
                (Some (DeployBody
                         (DeployRequest.mk (DeployModal.artifactName props)
                            (DeployModal.selectedNetwork (ui w))
                            (DeployModal.selectedWallet (ui w))
                            args
                            (if decide (DeployModal.value (ui w) = "") then None
                             else Some (DeployModal.value (ui w))))))])%list.
Proof.
  intros Hargs Hnet Hok Hjson Hfield Hfalsy.
  unfold DeployModal.handleDeploy, api.deploy, postJson, read_json, Eff.fetch.
  unfold_eff. simpl. rewrite Hargs. simpl.
  rewrite Hnet, Hok. simpl. rewrite Hjson. simpl. rewrite Hfield. simpl.
  rewrite Hfalsy. simpl.
  eexists. split; [reflexivity|]. simpl. split; [reflexivity|].
  split; reflexivity.
Qed.

Lemma modal_without_address_is_silent_witness :
  exists w',
    DeployModal.handleDeploy mounted_alone
      (fun _ => {| outcome :=
                     Responded
                       (Response.mk true 200 (Ok "")
                          (Ok (JObj [(units "tx_hash", JText "0xfeed");
                                     (units "contract_address", JNull)])));
                   latency := 9 |})
      (DeployModal.mkProps "Token"
         (fun d => Eff.set (DeployModal.setDeployError (Some "called"))))
      (mkWorld 0 [] []
         (DeployModal.mkState None "mainnet" "alice" ∅ "" false (Some "old error")))
    = (Ok tt, w')
    /\ ui w' = DeployModal.mkState None "mainnet" "alice" ∅ "" false None
    /\ timers w' = []
    /\ sent w'
       = [Request.mk "/api/deploy" POST
            (Some (DeployBody (DeployRequest.mk "Token" "mainnet" "alice" [] None)))].
Proof.
  exact (modal_without_address_is_silent
           (fun _ => {| outcome :=
                          Responded
                            (Response.mk true 200 (Ok "")
                               (Ok (JObj [(units "tx_hash", JText "0xfeed");
                                          (units "contract_address", JNull)])));
                        latency := 9 |})
           (DeployModal.mkProps "Token"
              (fun d => Eff.set (DeployModal.setDeployError (Some "called"))))
           (mkWorld 0 [] []
              (DeployModal.mkState None "mainnet" "alice" ∅ "" false
                 (Some "old error")))
           (Response.mk true 200 (Ok "")
              (Ok (JObj [(units "tx_hash", JText "0xfeed");
                         (units "contract_address", JNull)])))
           (JObj [(units "tx_hash", JText "0xfeed");
                  (units "contract_address", JNull)])
           (Some JNull) []
           eq_refl (fun _ => eq_refl) eq_refl eq_refl eq_refl eq_refl).
Defined.

(** ** api/client.ts *)

(** X13: [fetchJson] and [postJson] hand a value to their caller exactly
    when the response is ok and its body reads as JSON, and that value is
    the body's; whatever the answer, each call puts one request on the
    wire, a GET without body or a POST with the data. *)
Theorem request_returns_iff_ok {S} (net : Request.t -> reply) (url : string)
  (data : payload) (w : World S) (v : jsval) :
  (fst (fetchJson net url w) = Ok v
   <-> exists r, outcome (net (Request.mk url GET None)) = Responded r
                 /\ Response.ok r = true /\ Response.json r = Ok v)
  /\ (fst (postJson net url data w) = Ok v
      <-> exists r, outcome (net (Request.mk url POST (Some data))) = Responded r
                    /\ Response.ok r = true /\ Response.json r = Ok v)
  /\ sent (snd (fetchJson net url w)) = (sent w ++ [Request.mk url GET None])%list
  /\ sent (snd (postJson net url data w))
     = (sent w ++ [Request.mk url POST (Some data)])%list.
Proof.
  split; [|split; [|split]].
  - unfold fetchJson, read_json, Eff.fetch. unfold_eff.
    destruct (outcome (net _)) as [e|r]; simpl.
    + split; [discriminate | intros (r & H & _); discriminate H].
    + destruct (Response.ok r) eqn:Hok; simpl.
      * split; [eauto | intros (r' & [= <-] & _ & H); exact H].
      * destruct (Response.text r); simpl;
          (split; [discriminate | intros (r' & [= <-] & H & _); congruence]).
  - unfold postJson, read_json, Eff.fetch. unfold_eff.
    destruct (outcome (net _)) as [e|r]; simpl.
    + split; [discriminate | intros (r & H & _); discriminate H].
    + destruct (Response.ok r) eqn:Hok; simpl.
      * split; [eauto | intros (r' & [= <-] & _ & H); exact H].
      * destruct (Response.text r); simpl;
          (split; [discriminate | intros (r' & [= <-] & H & _); congruence]).
  - now rewrite (proj2 (fetchJson_run net url w w)).
  - now rewrite (proj2 (postJson_run net url data w w)).
Qed.

Lemma encode_unit_safe (c d : ascii) :
  In d (StrExt.encode_unit c) -> StrExt.unreserved d = true \/ d = "%"%char.
Proof.
  assert (Hall : List.forallb (fun x => StrExt.unreserved x || Ascii.eqb x "%")
                         (StrExt.encode_unit c) = true).
  { destruct c as [[] [] [] [] [] [] [] []]; vm_compute; reflexivity. }
  intros Hd. rewrite List.forallb_forall in Hall. specialize (Hall d Hd).
  apply orb_true_iff in Hall as [H|H]; [now left | right].
  now apply Ascii.eqb_eq.
Qed.

Lemma encode_unit_decodes :
  exists decode : list ascii -> option (ascii * list ascii),
    decode [] = None
    /\ forall (c : ascii) (rest : list ascii),
         decode (StrExt.encode_unit c ++ rest)%list = Some (c, rest).
Proof.
  exists (fun l =>
            match l with
            | [] => None
            | c :: r =>
                if Ascii.eqb c "%" then
                  match r with
                  | h1 :: h2 :: r' =>
                      match JSON.hex_val h1, JSON.hex_val h2 with
                      | Some x, Some y =>
                          if (16 * x + y <? 128)%N
                          then Some (ascii_of_N (16 * x + y), r')
                          else
                            match r' with
                            | _ :: h3 :: h4 :: r'' =>
                                match JSON.hex_val h3, JSON.hex_val h4 with
                                | Some x', Some y' =>
                                    Some (ascii_of_N
                                            ((16 * x + y - 192) * 64
                                             + (16 * x' + y' - 128)), r'')
                                | _, _ => None
                                end
                            | _ => None
                            end
                      | _, _ => None
                      end
                  | _ => None
                  end
                else Some (c, r)
            end).
  split; [reflexivity|].
  intros c rest. destruct c as [[] [] [] [] [] [] [] []]; reflexivity.
Qed.

Lemma encodeURIComponent_chars (s : string) (c : ascii) :
  In c (Str.chars (StrExt.encodeURIComponent s)) ->
  StrExt.unreserved c = true \/ c = "%"%char.
Proof.
  unfold StrExt.encodeURIComponent. rewrite chars_text. intros Hc.
  apply in_concat in Hc as (l & Hl & Hc). apply in_map_iff in Hl as (x & <- & _).
  now apply (encode_unit_safe x).
Qed.

Lemma encodeURIComponent_no_delimiter (s : string) (c : ascii) :
  In c ["/"; "?"; "#"; "&"; "="; "+"; " "]%char ->
  ~ In c (Str.chars (StrExt.encodeURIComponent s)).
Proof.
  intros Hc Hin. apply encodeURIComponent_chars in Hin.
  simpl in Hc. repeat (destruct Hc as [<-|Hc]; [destruct Hin; discriminate|]).
  contradiction.
Qed.

(** X14: [encodeURIComponent] yields only letters, digits, the marks
    [- _ . ! ~ * ' ( )] and the percent sign, so a name can bring no
    [/], [?], [#], [&], [=], [+] or space into a URL; a text made of
    letters, digits and those marks is left as it is; and different texts
    have different encodings. *)
Theorem encodeURIComponent_safe (s : string) :
  (forall c, In c (Str.chars (StrExt.encodeURIComponent s)) ->
             StrExt.unreserved c = true \/ c = "%"%char)
  /\ (forall c, In c ["/"; "?"; "#"; "&"; "="; "+"; " "]%char ->
                ~ In c (Str.chars (StrExt.encodeURIComponent s)))
  /\ (Forall (fun c => StrExt.unreserved c = true) (Str.chars s) ->
      StrExt.encodeURIComponent s = s)
  /\ (forall s', StrExt.encodeURIComponent s = StrExt.encodeURIComponent s' ->
                 s = s').
Proof.
  split; [apply encodeURIComponent_chars|].
  split; [apply encodeURIComponent_no_delimiter|]. split.
  - intros Hall. unfold StrExt.encodeURIComponent.
    rewrite <- (text_chars s) at 2. f_equal.
    induction Hall as [|c l Hc _ IH]; simpl; [reflexivity|].
    unfold StrExt.encode_unit at 1. rewrite Hc. simpl. now rewrite IH.
  - destruct encode_unit_decodes as (decode & Hnil & Hdec).
    intros s' Heq. apply chars_inj. unfold StrExt.encodeURIComponent in Heq.
    apply (f_equal Str.chars) in Heq. rewrite !chars_text in Heq.
    revert Heq. generalize (Str.chars s'). generalize (Str.chars s).
    induction l as [|c l IH]; intros [|c' l'] Heq; simpl in Heq.
    + reflexivity.
    + apply (f_equal decode) in Heq. rewrite Hnil, Hdec in Heq. discriminate.
    + apply (f_equal decode) in Heq. rewrite Hnil, Hdec in Heq. discriminate.
    + apply (f_equal decode) in Heq. rewrite !Hdec in Heq.
      injection Heq as -> Heq. f_equal. now apply IH.
Qed.

Lemma encodeURIComponent_safe_witness :
  StrExt.encodeURIComponent "v2_b" = "v2_b"
  /\ ~ In "/"%char (Str.chars (StrExt.encodeURIComponent "../a b?x=1")).
Proof.
  split.
  - apply (proj1 (proj2 (proj2 (encodeURIComponent_safe "v2_b")))).
    repeat (constructor; [reflexivity|]). constructor.
  - apply (proj1 (proj2 (encodeURIComponent_safe "../a b?x=1"))).
    simpl. tauto.
Defined.

Example encodeURIComponent_samples :
  map StrExt.encodeURIComponent ["main net"; "a/b"; "x&y=z"; "100%"; ""]
  = ["main%20net"; "a%2Fb"; "x%26y%3Dz"; "100%25"; ""]
  /\ StrExt.encodeURIComponent (String (ascii_of_N 233) "") = "%C3%A9".
Proof. split; vm_compute; reflexivity. Qed.



(** ** lib/format.ts: relative dates *)

(** X16: the text [formatRelativeDate] picks for a date that is [diff]
    milliseconds in the past: [Just now] below two minutes; the whole
    minutes (2 to 59) up to one hour; the whole hours (1 to 23) up to 24
    hours; [Yesterday] from 24 up to 48 hours, whatever the calendar day;
    the whole days (2 to 6) up to seven days; and the locale's date from
    seven days on. *)
Theorem formatRelativeDate_buckets (now date : Z) :
  (0 <= now - date < 120000 ->
   RelativeDate.formatRelativeDate now date = RelativeDate.Text "Just now")
  /\ (120000 <= now - date < 3600000 ->
      exists m, 2 <= m <= 59 /\ m = (now - date) / 60000
                /\ RelativeDate.formatRelativeDate now date
                   = RelativeDate.Text (StrExt.showZ m +:+ "m ago"))
  /\ (3600000 <= now - date < 86400000 ->
      exists h, 1 <= h <= 23 /\ h = (now - date) / 3600000
                /\ RelativeDate.formatRelativeDate now date
                   = RelativeDate.Text (StrExt.showZ h +:+ "h ago"))
  /\ (86400000 <= now - date < 172800000 ->
      RelativeDate.formatRelativeDate now date = RelativeDate.Text "Yesterday")
  /\ (172800000 <= now - date < 604800000 ->
      exists d, 2 <= d <= 6 /\ d = (now - date) / 86400000
                /\ RelativeDate.formatRelativeDate now date
                   = RelativeDate.Text (StrExt.showZ d +:+ "d ago"))
  /\ (604800000 <= now - date ->
      RelativeDate.formatRelativeDate now date = RelativeDate.LocaleDate).
Proof.
  unfold RelativeDate.formatRelativeDate.
  change (1000 * 60 * 60 * 24) with 86400000.
  change (1000 * 60 * 60) with 3600000.
  change (1000 * 60) with 60000.
  set (diff := now - date).
  pose proof (Z.div_mod diff 86400000 ltac:(lia)) as Hd.
  pose proof (Z.mod_pos_bound diff 86400000 ltac:(lia)) as Hdr.
  pose proof (Z.div_mod diff 3600000 ltac:(lia)) as Hh.
  pose proof (Z.mod_pos_bound diff 3600000 ltac:(lia)) as Hhr.
  pose proof (Z.div_mod diff 60000 ltac:(lia)) as Hm.
  pose proof (Z.mod_pos_bound diff 60000 ltac:(lia)) as Hmr.
  set (qd := diff / 86400000) in *. set (rd := diff mod 86400000) in *.
  set (qh := diff / 3600000) in *. set (rh := diff mod 3600000) in *.
  set (qm := diff / 60000) in *. set (rm := diff mod 60000) in *.
  clearbody qd rd qh rh qm rm.
  repeat split; intros Hrange;
    repeat match goal with
           | |- context [?a =? ?b] => destruct (Z.eqb_spec a b); try lia
           | |- context [?a <=? ?b] => destruct (Z.leb_spec a b); try lia
           | |- context [?a <? ?b] => destruct (Z.ltb_spec a b); try lia
           end;
    try reflexivity;
    eexists; (split; [|split; [reflexivity|reflexivity]]); lia.
Qed.

Lemma formatRelativeDate_buckets_witness :
  RelativeDate.formatRelativeDate 1700000090000 1700000000000
  = RelativeDate.Text "Just now"
  /\ RelativeDate.formatRelativeDate 1700090000000 1700000000000
     = RelativeDate.Text "Yesterday"
  /\ RelativeDate.formatRelativeDate 1700700000000 1700000000000
     = RelativeDate.LocaleDate.
Proof.
  split; [|split].
  - apply (proj1 (formatRelativeDate_buckets 1700000090000 1700000000000)). lia.
  - apply (proj1 (proj2 (proj2 (proj2
             (formatRelativeDate_buckets 1700090000000 1700000000000))))). lia.
  - apply (proj2 (proj2 (proj2 (proj2 (proj2
             (formatRelativeDate_buckets 1700700000000 1700000000000)))))). lia.
Defined.

(** X17: a date that lies in the future, by however little, is never
    [Just now]: it is rendered as a negative number of days followed by
    [d ago], rounded away from zero. *)
Theorem formatRelativeDate_future (now date : Z) :
  now < date ->
  exists days : N,
    (1 <= days)%N
    /\ - Z.of_N days = (now - date) / 86400000
    /\ RelativeDate.formatRelativeDate now date
       = RelativeDate.Text ("-" +:+ Str.show days +:+ "d ago").
Proof.
  intros Hfut. unfold RelativeDate.formatRelativeDate.
  change (1000 * 60 * 60 * 24) with 86400000.
  set (diff := now - date).
  pose proof (Z.div_mod diff 86400000 ltac:(lia)) as Hd.
  pose proof (Z.mod_pos_bound diff 86400000 ltac:(lia)) as Hdr.
  set (qd := diff / 86400000) in *. set (rd := diff mod 86400000) in *.
  assert (Hneg : qd <= -1) by (subst diff; lia).
  clearbody qd rd.
  exists (Z.to_N (- qd)). split; [lia|]. split; [lia|].
  destruct (Z.eqb_spec qd 0); [lia|]. destruct (Z.eqb_spec qd 1); [lia|].
  destruct (Z.ltb_spec qd 7); [|lia].
  unfold StrExt.showZ. destruct (Z.ltb_spec qd 0); [|lia]. reflexivity.
Qed.

Lemma formatRelativeDate_future_witness :
  exists days : N,
    (1 <= days)%N
    /\ - Z.of_N days = (1700000000000 - 1700000000001) / 86400000
    /\ RelativeDate.formatRelativeDate 1700000000000 1700000000001
       = RelativeDate.Text ("-" +:+ Str.show days +:+ "d ago").
Proof.
  apply (formatRelativeDate_future 1700000000000 1700000000001). lia.
Defined.

Example formatRelativeDate_samples :
  map (fun diff => RelativeDate.formatRelativeDate diff 0)
      [0; 119999; 120000; 3599999; 3600000; 86399999; 86400000; 172799999;
       172800000; 604799999; 604800000; -1; -86400001]
  = [RelativeDate.Text "Just now"; RelativeDate.Text "Just now";
     RelativeDate.Text "2m ago"; RelativeDate.Text "59m ago";
     RelativeDate.Text "1h ago"; RelativeDate.Text "23h ago";
     RelativeDate.Text "Yesterday"; RelativeDate.Text "Yesterday";
     RelativeDate.Text "2d ago"; RelativeDate.Text "6d ago";
     RelativeDate.LocaleDate; RelativeDate.Text "-1d ago";
     RelativeDate.Text "-2d ago"].
Proof. vm_compute. reflexivity. Qed.

(** ** pages/contracts.tsx: the filter tabs *)

Lemma count_is_length (artifacts : list ArtifactInfo.t)
  (filter : Contracts.FilterType) :
  Contracts.count artifacts filter
  = length (Contracts.filteredArtifacts artifacts filter).
Proof.
  unfold Contracts.count, Contracts.filteredArtifacts, Contracts.deployedCount,
    Contracts.availableCount.
  destruct filter; f_equal;
    induction artifacts as [|a l IH]; simpl; try reflexivity;
    destruct (ArtifactInfo.has_bytecode a), (ArtifactInfo.in_registry a); simpl;
    now rewrite ?IH.
Qed.

Lemma filteredArtifacts_deployable (artifacts : list ArtifactInfo.t)
  (filter : Contracts.FilterType) :
  Forall (fun a => ArtifactInfo.has_bytecode a = true)
         (Contracts.filteredArtifacts artifacts filter)
  /\ sublist (Contracts.filteredArtifacts artifacts filter) artifacts.
Proof.
  split.
  - unfold Contracts.filteredArtifacts.
    induction artifacts as [|a l IH]; simpl; [constructor|].
    destruct (ArtifactInfo.has_bytecode a) eqn:Hb; simpl; [|exact IH].
    destruct filter, (ArtifactInfo.in_registry a); simpl;
      try exact IH; constructor; assumption.
  - unfold Contracts.filteredArtifacts.
    induction artifacts as [|a l IH]; simpl; [constructor|].
    destruct (negb _); [now constructor|].
    destruct (match filter with
              | Contracts.all => true
              | Contracts.deployed => ArtifactInfo.in_registry a
              | Contracts.available => negb (ArtifactInfo.in_registry a)
              end); now constructor.
Qed.

(** X18: when the page lists cards, the number on the button of the
    filter in force is the number of cards listed, every card is an
    artifact of the list that has bytecode, and the cards come in the
    order of the list; when it shows the empty state instead, that
    number is zero; while it is loading it shows the skeleton, whatever
    the numbers on the buttons are.  The deployed and the available
    artifacts together are all the artifacts that have bytecode. *)
Theorem filter_counts_match (loading : bool) (artifacts : list ArtifactInfo.t)
  (filter : Contracts.FilterType) :
  (forall shown,
      Contracts.contractsList loading artifacts filter = Contracts.Cards shown ->
      loading = false
      /\ Contracts.count artifacts filter = length shown
      /\ shown <> []
      /\ Forall (fun a => ArtifactInfo.has_bytecode a = true) shown
      /\ sublist shown artifacts)
  /\ (Contracts.contractsList loading artifacts filter = Contracts.EmptyState ->
      loading = false /\ Contracts.count artifacts filter = 0%nat)
  /\ (Contracts.contractsList loading artifacts filter = Contracts.CardSkeleton
      <-> loading = true)
  /\ (Contracts.count artifacts Contracts.all
      = Contracts.count artifacts Contracts.deployed
        + Contracts.count artifacts Contracts.available)%nat.
Proof.
  unfold Contracts.contractsList.
  pose proof (count_is_length artifacts filter) as Hcount.
  pose proof (filteredArtifacts_deployable artifacts filter) as [Hall Hsub].
  split; [|split; [|split]].
  - intros shown H. destruct loading; [discriminate H|].
    destruct (Contracts.filteredArtifacts artifacts filter) as [|a l];
      [discriminate H|].
    injection H as <-. repeat split; try assumption. discriminate.
  - intros H. destruct loading; [discriminate H|].
    destruct (Contracts.filteredArtifacts artifacts filter) as [|a l];
      [|discriminate H].
    now split.
  - destruct loading; [tauto|].
    destruct (Contracts.filteredArtifacts artifacts filter);
      split; discriminate.
  - clear Hcount Hall Hsub.
    unfold Contracts.count, Contracts.deployedCount, Contracts.availableCount.
    induction artifacts as [|a l IH]; simpl; [reflexivity|].
    destruct (ArtifactInfo.has_bytecode a), (ArtifactInfo.in_registry a); simpl;
      lia.
Qed.

Lemma filter_counts_match_witness :
  Contracts.count
    [ArtifactInfo.mk "Token" "src/Token.sol" true true true;
     ArtifactInfo.mk "IToken" "src/IToken.sol" false false false;
     ArtifactInfo.mk "Vault" "src/Vault.sol" true true false]
    Contracts.available
  = length [ArtifactInfo.mk "Vault" "src/Vault.sol" true true false]
  /\ Contracts.contractsList true
       [ArtifactInfo.mk "Token" "src/Token.sol" true true true]
       Contracts.all
     = Contracts.CardSkeleton.
Proof.
  split.
  - apply (proj1 (filter_counts_match false
                    [ArtifactInfo.mk "Token" "src/Token.sol" true true true;
                     ArtifactInfo.mk "IToken" "src/IToken.sol" false false false;
                     ArtifactInfo.mk "Vault" "src/Vault.sol" true true false]
                    Contracts.available)
             [ArtifactInfo.mk "Vault" "src/Vault.sol" true true false] eq_refl).
  - apply (proj1 (proj2 (proj2 (filter_counts_match true
                    [ArtifactInfo.mk "Token" "src/Token.sol" true true true]
                    Contracts.all)))).
    reflexivity.
Defined.

(** ** lib/format.ts: [truncateAddress] once more *)

Lemma truncateAddress_long (address : string) :
  (13 < String.length address)%nat ->
  String.length (Format.truncateAddress address) = 13%nat.
Proof.
  intros Hlen. unfold Format.truncateAddress.
  destruct (Nat.leb_spec (String.length address) 13) as [Hle|_]; [lia|].
  change 6 with (Z.of_nat 6). change (-4) with (- Z.of_nat 4).
  rewrite slice_head, slice_tail by lia.
  rewrite !length_append, !length_text, length_take, length_drop, length_chars.
  change (String.length "...") with 3%nat. lia.
Qed.

(** X19: the result of [truncateAddress] is never longer than 13 code
    units nor longer than its argument, and truncating twice is the same
    as truncating once. *)
Theorem truncateAddress_idempotent (address : string) :
  (String.length (Format.truncateAddress address) <= 13)%nat
  /\ (String.length (Format.truncateAddress address) <= String.length address)%nat
  /\ Format.truncateAddress (Format.truncateAddress address)
     = Format.truncateAddress address.
Proof.
  destruct (Nat.leb_spec (String.length address) 13) as [Hle|Hgt].
  - assert (Hid : Format.truncateAddress address = address).
    { unfold Format.truncateAddress.
      destruct (Nat.leb_spec (String.length address) 13); [reflexivity | lia]. }
    rewrite !Hid. repeat split; lia.
  - pose proof (truncateAddress_long address Hgt) as H13.
    split; [lia|]. split; [lia|].
    unfold Format.truncateAddress at 1. rewrite H13. reflexivity.
Qed.
